(** * stackit_cost_monitoring: the Nagios cost plugin

    A shallow embedding of [src/stackit_cost_monitoring/nagios_plugin.py]
    and the properties of its specification.

    Layout: the Python values the plugin computes with (binary64 floats,
    dates, exceptions, standard output), then the plugin's classes and
    functions in source order, then the lemmas and theorems. *)

From Stdlib Require Import ZArith QArith Qround List String Ascii Bool Lia.
From Stdlib Require Import Permutation DecimalString.
From Stdlib Require Import Floats.SpecFloat.
Import ListNotations.

Local Open Scope string_scope.
Local Open Scope Z_scope.

(** ** Python floats: IEEE 754 binary64 *)

Module PyFloat.

(** A Python [float] is a binary64 number: 53 bits of precision, infinities
    at exponent 1024, round to nearest even. *)
Definition prec : Z := 53.
Definition emax : Z := 1024.

Definition float : Type := spec_float.

Definition add (x y : float) : float := SFadd prec emax x y.

(** [x / y] for a divisor that is not zero (Python raises ZeroDivisionError
    on a zero divisor, the plugin only divides by [CENTS_PER_EURO]). *)
Definition truediv (x y : float) : float := SFdiv prec emax x y.

(** [float(n)] of a Python int. *)
Definition of_int (n : Z) : float := binary_normalize prec emax n 0 false.

Definition lt (x y : float) : bool := SFltb x y.
Definition le (x y : float) : bool := SFleb x y.
Definition gt (x y : float) : bool := SFltb y x.
Definition ge (x y : float) : bool := SFleb y x.

(** The builtin [max(a, b)]: the first argument unless the second is
    strictly greater. *)
Definition max (a b : float) : float := if gt b a then b else a.

Definition zero : float := S754_zero false.

(** *** Decimal output *)

Definition sign_prefix (s : bool) : string := if s then "-" else "".

Definition string_of_nonneg (n : Z) : string :=
  NilZero.string_of_uint (N.to_uint (Z.to_N n)).

Definition two_digits (n : Z) : string :=
  if n <? 10 then "0" ++ string_of_nonneg n else string_of_nonneg n.

(** The nearest integer to [m * 2^e * 100], ties to even: the number of
    hundredths that the format [.2f] prints. *)
Definition hundredths (m : positive) (e : Z) : Z :=
  let num := Zpos m * 100 in
  if 0 <=? e then num * 2 ^ e
  else
    let den := 2 ^ (- e) in
    let q := num / den in
    let r := num mod den in
    match (2 * r) ?= den with
    | Lt => q
    | Gt => q + 1
    | Eq => if Z.even q then q else q + 1
    end.

(** [f"{x:.2f}"] *)
Definition format_2f (x : float) : string :=
  match x with
  | S754_nan => "nan"
  | S754_infinity s => sign_prefix s ++ "inf"
  | S754_zero s => sign_prefix s ++ "0.00"
  | S754_finite s m e =>
      let h := hundredths m e in
      sign_prefix s ++ string_of_nonneg (h / 100) ++ "." ++ two_digits (h mod 100)
  end.

(** [repr] of a float is the shortest decimal string that reads back as the
    same float.  The candidates with [n] digits are the two neighbours of the
    value on the grid of step [10^(k-n)]; the first [n] for which one of them
    lies in the rounding interval of the float gives the digits.  When both
    lie in it the nearer one is taken, the even one when they are equally
    near. *)

Definition Qpow (b : Z) (k : Z) : Q :=
  if 0 <=? k then inject_Z (b ^ k) else Qinv (inject_Z (b ^ (- k))).

Definition Qltb (x y : Q) : bool := negb (Qle_bool y x).

Definition value (m : positive) (e : Z) : Q := (inject_Z (Zpos m) * Qpow 2 e)%Q.

Definition in_rounding_interval (m : positive) (e : Z) (x : Q) : bool :=
  let v := value m e in
  let up := Qpow 2 (e - 1) in
  let down := if (Zpos m =? 2 ^ 52) && (-1074 <? e) then Qpow 2 (e - 2) else up in
  if Z.even (Zpos m)
  then Qle_bool (v - down) x && Qle_bool x (v + up)
  else Qltb (v - down) x && Qltb x (v + up).

(** The least [k] from [k0] upwards with [v < 10^k]. *)
Fixpoint decimal_exponent (fuel : nat) (v : Q) (k0 : Z) : Z :=
  match fuel with
  | O => k0
  | S fuel' => if Qltb v (Qpow 10 k0) then k0 else decimal_exponent fuel' v (k0 + 1)
  end.

(** A lower bound of that [k]: [m * 2^e >= 2^(b-1)] for [b] the number of
    bits of [m] plus [e], and [log10 2] is 0.30103 to five places. *)
Definition decimal_exponent_start (m : positive) (e : Z) : Z :=
  (Zpos (digits2_pos m) + e - 1) * 30103 / 100000 - 1.

(** Digits and power of ten, [(d, p)] for [d * 10^p]. *)
Fixpoint shortest_digits (fuel : nat) (m : positive) (e : Z) (k : Z) (n : Z)
  : Z * Z :=
  let v := value m e in
  let step := Qpow 10 (k - n) in
  let a := Qfloor (v / step) in
  let b := a + 1 in
  let fa := (inject_Z a * step)%Q in
  let fb := (inject_Z b * step)%Q in
  let nearest :=
    match Qcompare (v - fa) (fb - v) with
    | Lt => a
    | Gt => b
    | Eq => if Z.even a then a else b
    end in
  match fuel with
  | O => (nearest, k - n)
  | S fuel' =>
      match in_rounding_interval m e fa, in_rounding_interval m e fb with
      | true, true => (nearest, k - n)
      | true, false => (a, k - n)
      | false, true => (b, k - n)
      | false, false => shortest_digits fuel' m e k (n + 1)
      end
  end.

Fixpoint strip_zeros (fuel : nat) (d p : Z) : Z * Z :=
  match fuel with
  | O => (d, p)
  | S fuel' =>
      if (d mod 10 =? 0) && negb (d =? 0) then strip_zeros fuel' (d / 10) (p + 1)
      else (d, p)
  end.

Fixpoint zeros (n : nat) : string :=
  match n with
  | O => ""
  | S n' => "0" ++ zeros n'
  end.

Definition exponent_suffix (x : Z) : string :=
  (if x <? 0 then "e-" else "e+") ++ two_digits (Z.abs x).

(** Lay the digits out as [repr] does: exponent notation when the decimal
    point falls more than 16 places to the right of the first digit or 4 or
    more to the left of it, positional notation otherwise. *)
Definition layout (digits : string) (decpt : Z) : string :=
  let len := Z.of_nat (String.length digits) in
  if (decpt <=? -4) || (16 <? decpt) then
    let tail := substring 1 (String.length digits - 1) digits in
    substring 0 1 digits
      ++ (if 1 <? len then "." ++ tail else "")
      ++ exponent_suffix (decpt - 1)
  else if decpt <=? 0 then
    "0." ++ zeros (Z.to_nat (- decpt)) ++ digits
  else if decpt <? len then
    substring 0 (Z.to_nat decpt) digits ++ "."
      ++ substring (Z.to_nat decpt) (String.length digits - Z.to_nat decpt) digits
  else
    digits ++ zeros (Z.to_nat (decpt - len)) ++ ".0".

(** [repr(x)], which is also [str(x)] and what an f-string field [{x}]
    prints. *)
Definition repr (x : float) : string :=
  match x with
  | S754_nan => "nan"
  | S754_infinity s => sign_prefix s ++ "inf"
  | S754_zero s => sign_prefix s ++ "0.0"
  | S754_finite s m e =>
      let k := decimal_exponent 5 (value m e) (decimal_exponent_start m e) in
      let '(d, p) := shortest_digits 16 m e k 1 in
      let '(d, p) := strip_zeros 20 d p in
      let digits := string_of_nonneg d in
      sign_prefix s ++ layout digits (Z.of_nat (String.length digits) + p)
  end.

End PyFloat.


(** ** Python dates *)

Module PyDate.

(** A [datetime.date] is carried by its proleptic Gregorian ordinal
    ([date.toordinal()]: 1 is 0001-01-01). *)
Definition date : Type := Z.

Definition eqb (a b : date) : bool := Z.eqb a b.

(** [d - timedelta(days=n)] *)
Definition sub_days (d : date) (n : Z) : date := d - n.

Definition days_in_month (month : Z) : Z :=
  nth (Z.to_nat month) [0; 31; 28; 31; 30; 31; 30; 31; 31; 30; 31; 30; 31] 0.

Definition days_before_month (month : Z) : Z :=
  nth (Z.to_nat month) [0; 0; 31; 59; 90; 120; 151; 181; 212; 243; 273; 304; 334] 0.

(** Year, month and day of an ordinal, as the [datetime] module computes
    them: cycles of 400, 100, 4 and 1 years. *)
Definition ord2ymd (ordinal : Z) : Z * Z * Z :=
  let n := ordinal - 1 in
  let n400 := n / 146097 in
  let n := n mod 146097 in
  let n100 := n / 36524 in
  let n := n mod 36524 in
  let n4 := n / 1461 in
  let n := n mod 1461 in
  let n1 := n / 365 in
  let n := n mod 365 in
  let year := n400 * 400 + 1 + n100 * 100 + n4 * 4 + n1 in
  if (n1 =? 4) || (n100 =? 4) then (year - 1, 12, 31)
  else
    let leapyear := (n1 =? 3) && (negb (n4 =? 24) || (n100 =? 3)) in
    let leap (in_month : bool) : Z := if in_month && leapyear then 1 else 0 in
    let month := Z.shiftr (n + 50) 5 in
    let preceding := days_before_month month + leap (2 <? month) in
    if n <? preceding
    then
      let month := month - 1 in
      let preceding := preceding - (days_in_month month + leap (month =? 2)) in
      (year, month, n - preceding + 1)
    else (year, month, n - preceding + 1).

Definition pad (width : nat) (n : Z) : string :=
  let digits := PyFloat.string_of_nonneg n in
  PyFloat.zeros (width - String.length digits) ++ digits.

(** [str(d)], the ISO form [YYYY-MM-DD]. *)
Definition isoformat (d : date) : string :=
  let '(year, month, day) := ord2ymd d in
  pad 4 year ++ "-" ++ pad 2 month ++ "-" ++ pad 2 day.

End PyDate.

(** ** Exceptions, standard output and the outside world *)

(** The exception classes that occur in the plugin.  [AuthException] and
    [CostApiException] come from the two collaborator modules; [SystemExit]
    is what [sys.exit] raises. *)
Inductive PyException : Type :=
| AuthException (msg : string)
| CostApiException (msg : string)
| ValueError (msg : string)
| AttributeError (msg : string)
| Exception (msg : string)
| SystemExit (code : Z).

(** [str(e)] of an exception built from one message. *)
Definition str_exception (e : PyException) : string :=
  match e with
  | AuthException msg | CostApiException msg | ValueError msg
  | AttributeError msg | Exception msg => msg
  | SystemExit code => PyFloat.sign_prefix (code <? 0) ++ PyFloat.string_of_nonneg (Z.abs code)
  end.

Definition result (A : Type) : Type := (PyException + A)%type.

(** Modelled from the spec: the request of the cost query service (the
    module [cost_api] is not part of the sources); the fields are the
    arguments [get_cost] passes to [get_project_costs]. *)
Inductive CostApiGranularity : Type := DAILY.
Inductive CostApiDepth : Type := PROJECT.

Record CostRequest : Type := {
  req_customer_account_id : string;
  req_project_id : string;
  from_date : PyDate.date;
  to_date : PyDate.date;
  granularity : CostApiGranularity;
  depth : CostApiDepth;
  include_zero_costs : bool
}.

(** What the process does to the outside, in program order. *)
Inductive Event : Type :=
| Print (line : string)
| LoadCredentials (sa_key_json : string)
| QueryCosts (request : CostRequest).

(** A computation appends to the events so far and either raises or
    returns. *)
Definition Run (A : Type) : Type := list Event -> list Event * result A.

Definition ret {A : Type} (a : A) : Run A := fun log => (log, inr a).

Definition raise {A : Type} (e : PyException) : Run A := fun log => (log, inl e).

Definition bind {A B : Type} (c : Run A) (k : A -> Run B) : Run B :=
  fun log =>
    match c log with
    | (log', inr a) => k a log'
    | (log', inl e) => (log', inl e)
    end.

Definition lift {A : Type} (r : result A) : Run A := fun log => (log, r).

Definition emit (ev : Event) : Run unit := fun log => ((log ++ [ev])%list, inr tt).

(** [try: body  except (classes) as e: handler e] *)
Definition try_except {A : Type} (body : Run A) (caught : PyException -> bool)
  (handler : PyException -> Run A) : Run A :=
  fun log =>
    match body log with
    | (log', inl e) => if caught e then handler e log' else (log', inl e)
    | done => done
    end.

Notation "x <- c ;; k" := (bind c (fun x => k))
  (at level 61, c at next level, right associativity).
Notation "c ;;; k" := (bind c (fun _ => k))
  (at level 61, right associativity).

Definition print (line : string) : Run unit := emit (Print line).

(** [sys.exit(code)] *)
Definition exit {A : Type} (code : Z) : Run A := raise (SystemExit code).

(** The lines written to standard output. *)
Definition printed (log : list Event) : list string :=
  flat_map (fun ev => match ev with Print line => [line] | _ => [] end) log.

(** The calls made to the two collaborators. *)
Definition collaborator_calls (log : list Event) : list Event :=
  filter (fun ev => match ev with Print _ => false | _ => true end) log.

(** The exit status of the interpreter: the code of [SystemExit], 1 after a
    traceback for any other exception that nobody caught, 0 otherwise. *)
Definition exit_status {A : Type} (r : result A) : Z :=
  match r with
  | inr _ => 0
  | inl (SystemExit code) => code
  | inl _ => 1
  end.

(** ** The collaborators *)

(** Modelled from the spec: the records of the cost report (module
    [cost_api], not part of the sources).  An entry has the start of its
    period and two amounts in minor currency units. *)
Record CostApiTimePeriod : Type := {
  start : PyDate.date;
  end_ : PyDate.date
}.

Record CostApiReportData : Type := {
  timePeriod : CostApiTimePeriod;
  charge : PyFloat.float;
  discount : PyFloat.float
}.

Record CostApiItemWithDetails : Type := {
  reportData : list CostApiReportData
}.

(** What [get_project_costs] returns: an item with the per-day report, or
    one without. *)
Inductive CostApiItem : Type :=
| WithDetails (item : CostApiItemWithDetails)
| WithoutDetails.

(** Modelled from the spec: the session handle of the credential loader
    (module [auth], not part of the sources). *)
Record Auth : Type := { key_file : string }.

(** Everything the process reads from outside: the UTC date at the two
    places that ask for it, and the answers of the two collaborators. *)
Record World : Type := {
  utc_date_in_get_cost : PyDate.date;
  utc_date_in_reporter : PyDate.date;
  load_credentials : string -> result Auth;
  get_project_costs : Auth -> CostRequest -> result CostApiItem
}.

(** ** The plugin *)

Definition CENTS_PER_EURO : Z := 100.

Definition DEFAULT_WARNING_EUROS : PyFloat.float := PyFloat.of_int 10.
Definition DEFAULT_CRITICAL_EUROS : PyFloat.float := PyFloat.of_int 50.
(** [Path.home() / ".stackit" / "sa-key.json"], the home directory written
    [~]; a path is carried by its text. *)
Definition DEFAULT_SA_KEY_JSON : string := "~/.stackit/sa-key.json".

(** [class NagiosExitCodes(Enum)] *)
Module NagiosExitCodes.

Inductive t : Type := OK | WARNING | CRITICAL | UNKNOWN.

Definition name (status : t) : string :=
  match status with
  | OK => "OK"
  | WARNING => "WARNING"
  | CRITICAL => "CRITICAL"
  | UNKNOWN => "UNKNOWN"
  end.

Definition value (status : t) : Z :=
  match status with
  | OK => 0
  | WARNING => 1
  | CRITICAL => 2
  | UNKNOWN => 3
  end.

End NagiosExitCodes.

(** The attributes of the namespace that [parser.parse_args()] returns: one
    per [add_argument]. *)
Record Namespace : Type := {
  ns_customer_account_id : string;
  ns_project_id : string;
  ns_warning : PyFloat.float;
  ns_critical : PyFloat.float;
  ns_sa_key_json : string;
  ns_skip_discount : bool
}.

(** [class ParsedArguments(BaseModel)]: the five declared fields. *)
Record ParsedArguments : Type := {
  customer_account_id : string;
  project_id : string;
  warning : PyFloat.float;
  critical : PyFloat.float;
  sa_key_json : string
}.

(** The constructor call of line 149, with the attributes of the
    namespace as keyword arguments: a pydantic model takes its declared
    fields from the keyword arguments and ignores the others. *)
Definition ParsedArguments_init (ns : Namespace) : ParsedArguments :=
  {| customer_account_id := ns_customer_account_id ns;
     project_id := ns_project_id ns;
     warning := ns_warning ns;
     critical := ns_critical ns;
     sa_key_json := ns_sa_key_json ns |}.

(** The values an attribute of the configuration can have. *)
Inductive PyValue : Type :=
| PyStr (s : string)
| PyFloatValue (x : PyFloat.float)
| PyPath (p : string)
| PyBool (b : bool).

(** The truth value of an object, as [not] and [if] see it. *)
Definition truthy (v : PyValue) : bool :=
  match v with
  | PyStr s => negb (String.eqb s "")
  | PyFloatValue x => negb (SFeqb x PyFloat.zero)
  | PyPath _ => true
  | PyBool b => b
  end.

(** [args.<name>] on a [ParsedArguments]: a declared field, or
    AttributeError. *)
Definition ParsedArguments_getattr (args : ParsedArguments) (name : string)
  : result PyValue :=
  if String.eqb name "customer_account_id" then inr (PyStr (customer_account_id args))
  else if String.eqb name "project_id" then inr (PyStr (project_id args))
  else if String.eqb name "warning" then inr (PyFloatValue (warning args))
  else if String.eqb name "critical" then inr (PyFloatValue (critical args))
  else if String.eqb name "sa_key_json" then inr (PyPath (sa_key_json args))
  else inl (AttributeError
              ("'ParsedArguments' object has no attribute '" ++ name ++ "'")).

(** [class NagiosReporter]: the attributes [__init__] sets. *)
Record NagiosReporter : Type := {
  args : ParsedArguments;
  today : PyDate.date;
  yesterday : PyDate.date;
  today_cost : PyFloat.float;
  today_discounted_cost : PyFloat.float;
  yesterday_cost : PyFloat.float;
  yesterday_discounted_cost : PyFloat.float
}.

(** [NagiosReporter.__init__] *)
Definition NagiosReporter_init (w : World) (args : ParsedArguments) : NagiosReporter :=
  let today := utc_date_in_reporter w in
  {| args := args;
     today := today;
     yesterday := PyDate.sub_days today 1;
     today_cost := PyFloat.zero;
     today_discounted_cost := PyFloat.zero;
     yesterday_cost := PyFloat.zero;
     yesterday_discounted_cost := PyFloat.zero |}.

(** [amount / CENTS_PER_EURO] *)
Definition euros (amount : PyFloat.float) : PyFloat.float :=
  PyFloat.truediv amount (PyFloat.of_int CENTS_PER_EURO).

(** The body of the loop of [book_cost_item], for one [report_data]. *)
Definition book_report_data (self : NagiosReporter) (report_data : CostApiReportData)
  : result NagiosReporter :=
  if PyDate.eqb (start (timePeriod report_data)) (today self) then
    inr {| args := args self;
           today := today self;
           yesterday := yesterday self;
           today_cost := PyFloat.add (today_cost self) (euros (charge report_data));
           today_discounted_cost :=
             PyFloat.add (today_discounted_cost self) (euros (discount report_data));
           yesterday_cost := yesterday_cost self;
           yesterday_discounted_cost := yesterday_discounted_cost self |}
  else if PyDate.eqb (start (timePeriod report_data)) (yesterday self) then
    inr {| args := args self;
           today := today self;
           yesterday := yesterday self;
           today_cost := today_cost self;
           today_discounted_cost := today_discounted_cost self;
           yesterday_cost := PyFloat.add (yesterday_cost self) (euros (charge report_data));
           yesterday_discounted_cost :=
             PyFloat.add (yesterday_discounted_cost self) (euros (discount report_data)) |}
  else
    inl (Exception ("CostApi returned unexpected date: "
                      ++ PyDate.isoformat (start (timePeriod report_data)))).

(** The loop of [book_cost_item] over the entries that are left. *)
Fixpoint book_entries (self : NagiosReporter) (entries : list CostApiReportData)
  : result NagiosReporter :=
  match entries with
  | [] => inr self
  | report_data :: rest =>
      match book_report_data self report_data with
      | inr self' => book_entries self' rest
      | inl e => inl e
      end
  end.

(** [NagiosReporter.book_cost_item]; the reporter it returns is [self] after
    the call. *)
Definition book_cost_item (self : NagiosReporter) (cost_item : CostApiItemWithDetails)
  : result NagiosReporter :=
  book_entries self (reportData cost_item).

(** [' '.join(items)] *)
Fixpoint join (sep : string) (items : list string) : string :=
  match items with
  | [] => ""
  | [item] => item
  | item :: rest => item ++ sep ++ join sep rest
  end.

Definition perf_data_items (self : NagiosReporter) : list string :=
  [ "yesterday_cost=" ++ PyFloat.format_2f (yesterday_cost self) ++ ";;;";
    "yesterday_discounted_cost=" ++ PyFloat.format_2f (yesterday_discounted_cost self) ++ ";;;";
    "today_cost=" ++ PyFloat.format_2f (today_cost self) ++ ";;;";
    "today_discounted_cost=" ++ PyFloat.format_2f (today_discounted_cost self) ++ ";;;" ].

(** [NagiosReporter._finish] *)
Definition _finish (self : NagiosReporter) (status : NagiosExitCodes.t) (message : string)
  : Run unit :=
  let perf_data := join " " (perf_data_items self) in
  print (NagiosExitCodes.name status ++ ": " ++ message ++ " | " ++ perf_data) ;;;
  exit (NagiosExitCodes.value status).

(** [do_report], lines 60 to 72: the two costs that are compared, for the
    value [skip_discount] that line 70 has read. *)
Definition compared_costs (self : NagiosReporter) (skip_discount : bool)
  : PyFloat.float * PyFloat.float :=
  if negb skip_discount
  then (PyFloat.add (today_cost self) (today_discounted_cost self),
        PyFloat.add (yesterday_cost self) (yesterday_discounted_cost self))
  else (today_cost self, yesterday_cost self).

(** [do_report], lines 74 to 82: exit code and message for a total. *)
Definition classify (args : ParsedArguments) (total_cost : PyFloat.float)
  : NagiosExitCodes.t * string :=
  if PyFloat.ge total_cost (critical args) then
    (NagiosExitCodes.CRITICAL, "Daily costs " ++ PyFloat.format_2f total_cost ++ " EUR >= "
                 ++ PyFloat.repr (critical args) ++ " EUR")
  else if PyFloat.ge total_cost (warning args) then
    (NagiosExitCodes.WARNING, "Daily costs " ++ PyFloat.format_2f total_cost ++ " EUR >= "
                ++ PyFloat.repr (warning args) ++ " EUR")
  else
    (NagiosExitCodes.OK, "Daily costs " ++ PyFloat.format_2f total_cost ++ " EUR").

(** [do_report] from line 71 on, once [self.args.skip_discount] has been
    read. *)
Definition do_report_with (self : NagiosReporter) (skip_discount : bool) : Run unit :=
  let '(today_cost, yesterday_cost) := compared_costs self skip_discount in
  let total_cost := PyFloat.max today_cost yesterday_cost in
  let '(exit_code, message) := classify (args self) total_cost in
  _finish self exit_code message.

(** [NagiosReporter.do_report] *)
Definition do_report (self : NagiosReporter) : Run unit :=
  skip_discount <- lift (ParsedArguments_getattr (args self) "skip_discount") ;;
  do_report_with self (truthy skip_discount).

(** How argparse itself ends the process while it parses.  [-h] or [--help]
    writes the help text to standard output and exits with 0.  An argument
    that argparse rejects (an option it does not know, a value that [float]
    does not accept, an option without its value) writes the usage and a
    message to standard error and exits with 2. *)
Inductive ParserExit : Type :=
| Help (text : list string)
| UsageError (message : string).

(** The command line as argparse makes it out: whether argparse ends the
    process while it parses (the help text, which depends on the program
    name and the width of the terminal, is given with the request), and the
    options with their converted values; an option that was not given is
    [None], a flag is [false]. *)
Record CommandLine : Type := {
  parser_exit : option ParserExit;
  opt_customer_account_id : option string;
  opt_project_id : option string;
  opt_warning : option PyFloat.float;
  opt_critical : option PyFloat.float;
  opt_sa_key_json : option string;
  opt_skip_discount : bool
}.

Definition default {A : Type} (d : A) (given : option A) : A :=
  match given with
  | Some a => a
  | None => d
  end.

(** One [print] per line. *)
Fixpoint print_all (lines : list string) : Run unit :=
  match lines with
  | [] => ret tt
  | line :: rest => print line ;;; print_all rest
  end.

(** [parser.parse_args()] for the parser of [get_arguments]: the help and
    the rejections of argparse, then two required options and four with a
    default.  A missing required option is a rejection too and ends the
    process with status 2. *)
Definition parse_args (argv : CommandLine) : Run Namespace :=
  match parser_exit argv with
  | Some (Help text) => print_all text ;;; exit 0
  | Some (UsageError _) => exit 2
  | None =>
      match opt_customer_account_id argv, opt_project_id argv with
      | Some account, Some project =>
          ret {| ns_customer_account_id := account;
                 ns_project_id := project;
                 ns_warning := default DEFAULT_WARNING_EUROS (opt_warning argv);
                 ns_critical := default DEFAULT_CRITICAL_EUROS (opt_critical argv);
                 ns_sa_key_json := default DEFAULT_SA_KEY_JSON (opt_sa_key_json argv);
                 ns_skip_discount := opt_skip_discount argv |}
      | _, _ => exit 2
      end
  end.

(** [get_arguments] *)
Definition get_arguments (argv : CommandLine) : Run ParsedArguments :=
  ns <- parse_args argv ;;
  let parsed_arguments := ParsedArguments_init ns in
  if PyFloat.lt (warning parsed_arguments) PyFloat.zero then
    raise (ValueError "Warning threshold must be >= 0.0")
  else if PyFloat.le (critical parsed_arguments) (warning parsed_arguments) then
    raise (ValueError "Critical threshold must be > warning threshold")
  else ret parsed_arguments.

(** The request that [get_cost] sends. *)
Definition cost_request (w : World) (args : ParsedArguments) : CostRequest :=
  let today := utc_date_in_get_cost w in
  let yesterday := PyDate.sub_days today 1 in
  {| req_customer_account_id := customer_account_id args;
     req_project_id := project_id args;
     from_date := yesterday;
     to_date := today;
     granularity := DAILY;
     depth := PROJECT;
     include_zero_costs := false |}.

(** [get_cost] *)
Definition get_cost (w : World) (args : ParsedArguments) : Run CostApiItemWithDetails :=
  emit (LoadCredentials (sa_key_json args)) ;;;
  auth <- lift (load_credentials w (sa_key_json args)) ;;
  emit (QueryCosts (cost_request w args)) ;;;
  result <- lift (get_project_costs w auth (cost_request w args)) ;;
  match result with
  | WithDetails item => ret item
  | WithoutDetails => raise (Exception "CostAPI returned item without report data!")
  end.

(** The classes of the [except] clause of [main]. *)
Definition caught_by_main (e : PyException) : bool :=
  match e with
  | AuthException _ | CostApiException _ => true
  | _ => false
  end.

(** [main] *)
Definition main (w : World) (argv : CommandLine) : Run unit :=
  try_except
    (args <- get_arguments argv ;;
     cost_item <- get_cost w args ;;
     reporter <- lift (book_cost_item (NagiosReporter_init w args) cost_item) ;;
     do_report reporter)
    caught_by_main
    (fun e =>
       print (NagiosExitCodes.name NagiosExitCodes.UNKNOWN ++ ": " ++ str_exception e ++ " |") ;;;
       exit (NagiosExitCodes.value NagiosExitCodes.UNKNOWN)).

(** A run of the process from an empty standard output. *)
Definition run_main (w : World) (argv : CommandLine) : list Event * result unit :=
  main w argv [].

(** ** Vocabulary of the statements *)

(** The entry is dated [d]. *)
Definition dated (d : PyDate.date) (report_data : CostApiReportData) : bool :=
  PyDate.eqb (start (timePeriod report_data)) d.

(** The amounts of the entries dated [d], each in euros, added to [acc] in
    the order of the entries. *)
Definition day_sum (amount : CostApiReportData -> PyFloat.float) (d : PyDate.date)
  (entries : list CostApiReportData) (acc : PyFloat.float) : PyFloat.float :=
  fold_left (fun acc report_data => PyFloat.add acc (euros (amount report_data)))
    (filter (dated d) entries) acc.

(** The total of day [d] that is compared with the thresholds: the charges
    of the day, and its discounts too unless they are skipped. *)
Definition day_total (skip_discount : bool) (d : PyDate.date)
  (entries : list CostApiReportData) : PyFloat.float :=
  if skip_discount then day_sum charge d entries PyFloat.zero
  else PyFloat.add (day_sum charge d entries PyFloat.zero)
         (day_sum discount d entries PyFloat.zero).

(** Booking the entries into a fresh reporter and reporting, for a value of
    the skip-discount flag. *)
Definition book_and_report (w : World) (args : ParsedArguments) (skip_discount : bool)
  (entries : list CostApiReportData) : list Event * result unit :=
  match book_cost_item (NagiosReporter_init w args) {| reportData := entries |} with
  | inr reporter => do_report_with reporter skip_discount []
  | inl e => ([], inl e)
  end.

(** The message as the specification words it:
    [Daily costs {reportedCost:.2f} EUR >= {threshold}] for WARNING and
    CRITICAL, [Daily costs {reportedCost:.2f} EUR] for OK. *)
Definition spec_message (args : ParsedArguments) (status : NagiosExitCodes.t)
  (reportedCost : PyFloat.float) : string :=
  match status with
  | NagiosExitCodes.CRITICAL =>
      "Daily costs " ++ PyFloat.format_2f reportedCost ++ " EUR >= "
        ++ PyFloat.repr (critical args)
  | NagiosExitCodes.WARNING =>
      "Daily costs " ++ PyFloat.format_2f reportedCost ++ " EUR >= "
        ++ PyFloat.repr (warning args)
  | _ => "Daily costs " ++ PyFloat.format_2f reportedCost ++ " EUR"
  end.

(** [s.split(' ')]: the pieces of [s] between single spaces. *)
Fixpoint split_spaces (s : string) : list string :=
  match s with
  | EmptyString => [""]
  | String c rest =>
      if Ascii.eqb c " " then "" :: split_spaces rest
      else
        match split_spaces rest with
        | piece :: pieces => String c piece :: pieces
        | [] => [String c ""]
        end
  end.

Fixpoint no_space (s : string) : bool :=
  match s with
  | EmptyString => true
  | String c rest => negb (Ascii.eqb c " ") && no_space rest
  end.

(** The text of a status line after its first [|]. *)
Fixpoint after_pipe (line : string) : string :=
  match line with
  | EmptyString => ""
  | String c rest => if Ascii.eqb c "|" then rest else after_pipe rest
  end.

(** The performance data of a status line: the tokens after the [|], the
    non-empty pieces between spaces. *)
Definition performance_tokens (line : string) : list string :=
  filter (fun token => negb (String.eqb token "")) (split_spaces (after_pipe line)).

(** ** Sample inputs *)

Definition entry (d : PyDate.date) (charge_cents discount_cents : Z) : CostApiReportData :=
  {| timePeriod := {| start := d; end_ := d + 1 |};
     charge := PyFloat.of_int charge_cents;
     discount := PyFloat.of_int discount_cents |}.

(** 2026-11-04 *)
Definition sample_today : PyDate.date := 739924.

(** A world in which it is [d] all along, the credentials load and the cost
    service answers with the given entries. *)
Definition world_with (d : PyDate.date) (entries : list CostApiReportData) : World :=
  {| utc_date_in_get_cost := d;
     utc_date_in_reporter := d;
     load_credentials := fun path => inr {| key_file := path |};
     get_project_costs := fun _ _ => inr (WithDetails {| reportData := entries |}) |}.

(** A world in which the credentials do not load: [load_credentials] raises
    [e]. *)
Definition world_failing_credentials (d : PyDate.date) (e : PyException) : World :=
  {| utc_date_in_get_cost := d;
     utc_date_in_reporter := d;
     load_credentials := fun _ => inl e;
     get_project_costs := fun _ _ => inr (WithDetails {| reportData := [] |}) |}.


(** [--customer-account-id acc --project-id proj], with the thresholds and
    the flag as given. *)
Definition command_line (w c : option PyFloat.float) (skip : bool) : CommandLine :=
  {| parser_exit := None;
     opt_customer_account_id := Some "acc";
     opt_project_id := Some "proj";
     opt_warning := w;
     opt_critical := c;
     opt_sa_key_json := None;
     opt_skip_discount := skip |}.

Definition default_args : ParsedArguments :=
  {| customer_account_id := "acc";
     project_id := "proj";
     warning := DEFAULT_WARNING_EUROS;
     critical := DEFAULT_CRITICAL_EUROS;
     sa_key_json := DEFAULT_SA_KEY_JSON |}.

(** The threshold 0.6000000000000001, one unit in the last place above 0.6. *)
Definition just_above_60_cents : PyFloat.float :=
  S754_finite false 5404319552844596 (-53).

Definition args_60_cents : ParsedArguments :=
  {| customer_account_id := "acc";
     project_id := "proj";
     warning := just_above_60_cents;
     critical := DEFAULT_CRITICAL_EUROS;
     sa_key_json := DEFAULT_SA_KEY_JSON |}.

(** Three entries of today: 10, 20 and 30 cents. *)
Definition three_entries : list CostApiReportData :=
  [entry sample_today 10 0; entry sample_today 20 0; entry sample_today 30 0].

(** The request of [get_cost] on [sample_today] for the sample account. *)
Definition sample_request : CostRequest :=
  {| req_customer_account_id := "acc";
     req_project_id := "proj";
     from_date := sample_today - 1;
     to_date := sample_today;
     granularity := DAILY;
     depth := PROJECT;
     include_zero_costs := false |}.

(** Scenario 1 of the specification: 5.00 EUR today, 2.00 EUR yesterday. *)
Definition scenario_1 : list CostApiReportData :=
  [entry sample_today 500 0; entry (sample_today - 1) 200 0].

(** Scenario 3 of the specification: 1.00 EUR today with 4.00 EUR of
    discount. *)
Definition scenario_3 : list CostApiReportData :=
  [entry sample_today 100 400].

(** Charges and discounts of two days, in cents: 123.45 EUR and 1.00 EUR of
    charges and 0.07 EUR of discount today, 9.99 EUR of charges and
    2500.00 EUR of discount yesterday. *)
Definition two_days : list CostApiReportData :=
  [entry sample_today 12345 7; entry (sample_today - 1) 999 250000;
   entry sample_today 100 0].

(** * Properties *)

(** ** The order of binary64 numbers *)

Section FloatOrder.

Lemma SFcompare_antisym (a b : spec_float) :
  SFcompare b a = option_map CompOpp (SFcompare a b).
Proof.
  destruct a as [[]|[]| |[] ma ea], b as [[]|[]| |[] mb eb]; simpl; try reflexivity;
    change (Pos.compare_cont Eq) with Pos.compare;
    rewrite (Z.compare_antisym ea eb), (Pos.compare_antisym ma mb);
    destruct (ea ?= eb), (ma ?= mb)%positive; reflexivity.
Qed.

Lemma SFcompare_lt_trans (a b c : spec_float) :
  SFcompare a b = Some Lt -> SFcompare b c = Some Lt -> SFcompare a c = Some Lt.
Proof.
  destruct a as [[]|[]| |[] ma ea], b as [[]|[]| |[] mb eb], c as [[]|[]| |[] mc ec];
    simpl; try congruence;
    change (Pos.compare_cont Eq) with Pos.compare;
    destruct (Z.compare_spec ea eb), (Z.compare_spec eb ec), (Z.compare_spec ea ec);
    simpl; try congruence; try lia;
    destruct (Pos.compare_spec ma mb), (Pos.compare_spec mb mc), (Pos.compare_spec ma mc);
    simpl; try congruence; try lia.
Qed.

Lemma lt_ge (a b : PyFloat.float) : PyFloat.lt a b = true -> PyFloat.ge a b = false.
Proof.
  unfold PyFloat.lt, PyFloat.ge, SFltb, SFleb.
  rewrite (SFcompare_antisym a b).
  destruct (SFcompare a b) as [[]|]; simpl; congruence.
Qed.

Lemma lt_trans (a b c : PyFloat.float) :
  PyFloat.lt a b = true -> PyFloat.lt b c = true -> PyFloat.lt a c = true.
Proof.
  unfold PyFloat.lt, SFltb. intros Hab Hbc.
  rewrite (SFcompare_lt_trans a b c); [reflexivity | |].
  - destruct (SFcompare a b) as [[]|]; congruence.
  - destruct (SFcompare b c) as [[]|]; congruence.
Qed.

Lemma SFcompare_none (a b : spec_float) :
  SFcompare a b = None -> a = S754_nan \/ b = S754_nan.
Proof.
  destruct a as [[]|[]| |[] ma ea], b as [[]|[]| |[] mb eb]; simpl; auto; discriminate.
Qed.

Lemma SFcompare_nan_r (a : spec_float) : SFcompare a S754_nan = None.
Proof. destruct a as [[]|[]| |[] ma ea]; reflexivity. Qed.

Lemma not_lt_ge (a b : PyFloat.float) :
  a <> S754_nan -> b <> S754_nan -> PyFloat.lt a b = false -> PyFloat.ge a b = true.
Proof.
  unfold PyFloat.lt, PyFloat.ge, SFltb, SFleb. intros Ha Hb.
  rewrite (SFcompare_antisym a b).
  destruct (SFcompare a b) as [[]|] eqn:Hc; simpl; try congruence.
  destruct (SFcompare_none a b Hc); contradiction.
Qed.

Lemma not_le_gt (a b : PyFloat.float) :
  a <> S754_nan -> b <> S754_nan -> PyFloat.le a b = false -> PyFloat.lt b a = true.
Proof.
  unfold PyFloat.lt, PyFloat.le, SFltb, SFleb. intros Ha Hb.
  rewrite (SFcompare_antisym a b).
  destruct (SFcompare a b) as [[]|] eqn:Hc; simpl; try congruence.
  destruct (SFcompare_none a b Hc); contradiction.
Qed.

Lemma add_nan_l (x : PyFloat.float) : PyFloat.add S754_nan x = S754_nan.
Proof. reflexivity. Qed.

Lemma add_nan_r (x : PyFloat.float) : PyFloat.add x S754_nan = S754_nan.
Proof. destruct x as [[]|[]| |[] m e]; reflexivity. Qed.

Lemma ge_nan (x : PyFloat.float) : PyFloat.ge S754_nan x = false.
Proof. unfold PyFloat.ge, SFleb. rewrite SFcompare_nan_r. reflexivity. Qed.

Lemma ge_false_lt (a b : PyFloat.float) :
  a <> S754_nan -> b <> S754_nan -> PyFloat.ge a b = false -> PyFloat.lt a b = true.
Proof.
  intros Ha Hb Hge. destruct (PyFloat.lt a b) eqn:Hlt; [reflexivity|].
  rewrite (not_lt_ge a b Ha Hb Hlt) in Hge. discriminate.
Qed.

Lemma ge_true_lt (a b : PyFloat.float) : PyFloat.ge a b = true -> PyFloat.lt a b = false.
Proof.
  intros Hge. destruct (PyFloat.lt a b) eqn:Hlt; [|reflexivity].
  rewrite (lt_ge a b Hlt) in Hge. discriminate.
Qed.

End FloatOrder.

(** ** The classification block *)

(** Lines 74 to 82 are a step function of the total with the two thresholds
    as inclusive lower bounds. *)
Lemma classify_step (args : ParsedArguments) (total_cost : PyFloat.float) :
  PyFloat.lt (warning args) (critical args) = true ->
  (PyFloat.lt total_cost (warning args) = true ->
     fst (classify args total_cost) = NagiosExitCodes.OK)
  /\ (PyFloat.le (warning args) total_cost = true ->
      PyFloat.lt total_cost (critical args) = true ->
     fst (classify args total_cost) = NagiosExitCodes.WARNING)
  /\ (PyFloat.ge total_cost (critical args) = true ->
     fst (classify args total_cost) = NagiosExitCodes.CRITICAL).
Proof.
  intros Hwc. unfold classify. repeat split.
  - intros Hlt.
    rewrite (lt_ge _ _ (lt_trans _ _ _ Hlt Hwc)), (lt_ge _ _ Hlt). reflexivity.
  - intros Hle Hlt. rewrite (lt_ge _ _ Hlt).
    unfold PyFloat.ge. unfold PyFloat.le in Hle. rewrite Hle. reflexivity.
  - intros Hge. rewrite Hge. reflexivity.
Qed.

(** ** Booking *)

Lemma book_report_data_frame (self self' : NagiosReporter) (rd : CostApiReportData) :
  book_report_data self rd = inr self' ->
  args self' = args self /\ today self' = today self /\ yesterday self' = yesterday self.
Proof.
  unfold book_report_data.
  destruct (PyDate.eqb _ (today self)); [|destruct (PyDate.eqb _ (yesterday self))];
    intros H; inversion H; subst; simpl; auto.
Qed.

Lemma day_sum_cons (amount : CostApiReportData -> PyFloat.float) (d : PyDate.date)
  (rd : CostApiReportData) (rest : list CostApiReportData) (acc : PyFloat.float) :
  day_sum amount d (rd :: rest) acc =
  if dated d rd then day_sum amount d rest (PyFloat.add acc (euros (amount rd)))
  else day_sum amount d rest acc.
Proof.
  unfold day_sum. simpl. destruct (dated d rd); reflexivity.
Qed.

(** After a booking that raised nothing, each accumulator holds what it held
    before plus the amounts of its day in entry order. *)
Lemma book_entries_sums (entries : list CostApiReportData) :
  forall self self' : NagiosReporter,
  yesterday self <> today self ->
  book_entries self entries = inr self' ->
  self' =
  {| args := args self;
     today := today self;
     yesterday := yesterday self;
     today_cost := day_sum charge (today self) entries (today_cost self);
     today_discounted_cost :=
       day_sum discount (today self) entries (today_discounted_cost self);
     yesterday_cost := day_sum charge (yesterday self) entries (yesterday_cost self);
     yesterday_discounted_cost :=
       day_sum discount (yesterday self) entries (yesterday_discounted_cost self) |}.
Proof.
  induction entries as [|rd rest IH]; intros self self' Hne Hbook.
  - simpl in Hbook. inversion Hbook. destruct self'; reflexivity.
  - simpl in Hbook. rewrite !day_sum_cons.
    unfold book_report_data in Hbook. unfold dated.
    destruct (PyDate.eqb (start (timePeriod rd)) (today self)) eqn:Htoday.
    + assert (Hy : PyDate.eqb (start (timePeriod rd)) (yesterday self) = false).
      { apply Z.eqb_neq. apply Z.eqb_eq in Htoday. unfold PyDate.date in *. congruence. }
      rewrite Hy. apply IH in Hbook; [|exact Hne]. exact Hbook.
    + destruct (PyDate.eqb (start (timePeriod rd)) (yesterday self)) eqn:Hyesterday.
      * apply IH in Hbook; [|exact Hne]. exact Hbook.
      * discriminate Hbook.
Qed.

(** A booking over entries of today and yesterday raises nothing. *)
Lemma book_entries_total (entries : list CostApiReportData) :
  forall self : NagiosReporter,
  Forall (fun rd => dated (today self) rd || dated (yesterday self) rd = true) entries ->
  exists self', book_entries self entries = inr self'.
Proof.
  induction entries as [|rd rest IH]; intros self Hall.
  - exists self. reflexivity.
  - inversion Hall as [|? ? Hrd Hrest]; subst. simpl.
    unfold book_report_data. unfold dated in Hrd.
    destruct (PyDate.eqb (start (timePeriod rd)) (today self)).
    + apply IH. exact Hrest.
    + simpl in Hrd. rewrite Hrd. apply IH. exact Hrest.
Qed.

(** An entry of another day makes the booking raise, with the date of such
    an entry in the message. *)
Lemma book_entries_unexpected (entries : list CostApiReportData) :
  forall self : NagiosReporter,
  Exists (fun rd => dated (today self) rd = false /\ dated (yesterday self) rd = false)
    entries ->
  exists rd,
    In rd entries
    /\ dated (today self) rd = false /\ dated (yesterday self) rd = false
    /\ book_entries self entries =
       inl (Exception ("CostApi returned unexpected date: "
                         ++ PyDate.isoformat (start (timePeriod rd)))).
Proof.
  induction entries as [|rd rest IH]; intros self Hex.
  - inversion Hex.
  - simpl. destruct (book_report_data self rd) as [e|self'] eqn:Hbook.
    + exists rd. unfold book_report_data, dated in *.
      destruct (PyDate.eqb (start (timePeriod rd)) (today self)); [discriminate|].
      destruct (PyDate.eqb (start (timePeriod rd)) (yesterday self)); [discriminate|].
      inversion Hbook. auto.
    + destruct (book_report_data_frame _ _ _ Hbook) as (_ & Ht & Hy).
      assert (Hrest : Exists (fun rd0 => dated (today self') rd0 = false
                                         /\ dated (yesterday self') rd0 = false) rest).
      { rewrite Ht, Hy. inversion Hex as [? ? [H1 H2]|]; subst; [|assumption].
        exfalso. unfold book_report_data, dated in *.
        rewrite H1, H2 in Hbook. discriminate. }
      destruct (IH self' Hrest) as (rd' & Hin & H1 & H2 & Heq).
      exists rd'. rewrite Ht in H1. rewrite Hy in H2. auto.
Qed.

Lemma book_entries_all_today (entries : list CostApiReportData) :
  forall self : NagiosReporter,
  Forall (fun rd => start (timePeriod rd) = today self) entries ->
  exists self',
    book_entries self entries = inr self'
    /\ args self' = args self
    /\ today self' = today self /\ yesterday self' = yesterday self
    /\ yesterday_cost self' = yesterday_cost self
    /\ yesterday_discounted_cost self' = yesterday_discounted_cost self.
Proof.
  induction entries as [|rd rest IH]; intros self Hall.
  - exists self. repeat split; reflexivity.
  - inversion Hall as [|? ? Hrd Hrest]; subst. simpl. unfold book_report_data.
    rewrite Hrd. unfold PyDate.eqb. rewrite Z.eqb_refl.
    match goal with |- context [book_entries ?s rest] => destruct (IH s Hrest) as (s' & H) end.
    exists s'. simpl in H. exact H.
Qed.

Lemma book_entries_all_yesterday (entries : list CostApiReportData) :
  forall self : NagiosReporter,
  yesterday self <> today self ->
  Forall (fun rd => start (timePeriod rd) = yesterday self) entries ->
  exists self',
    book_entries self entries = inr self'
    /\ args self' = args self
    /\ today self' = today self /\ yesterday self' = yesterday self
    /\ today_cost self' = today_cost self
    /\ today_discounted_cost self' = today_discounted_cost self.
Proof.
  induction entries as [|rd rest IH]; intros self Hne Hall.
  - exists self. repeat split; reflexivity.
  - inversion Hall as [|? ? Hrd Hrest]; subst. simpl. unfold book_report_data.
    rewrite Hrd. unfold PyDate.eqb.
    destruct (Z.eqb_spec (yesterday self) (today self)) as [Heq|_]; [contradiction|].
    rewrite Z.eqb_refl.
    match goal with |- context [book_entries ?s rest] => destruct (IH s Hne Hrest) as (s' & H) end.
    exists s'. simpl in H. exact H.
Qed.

(** C10: booking a cost item whose entries are all dated today changes only
    the two accumulators of today: the accumulators of yesterday, the two
    stored dates and the configuration are as before.  Symmetrically, for a
    reporter whose [yesterday] is the day before its [today] (as [__init__]
    sets it), booking entries all dated yesterday leaves the accumulators of
    today, the dates and the configuration as before. *)
Theorem book_cost_item_frame (self : NagiosReporter) (cost_item : CostApiItemWithDetails) :
  (Forall (fun rd => start (timePeriod rd) = today self) (reportData cost_item) ->
   exists self',
     book_cost_item self cost_item = inr self'
     /\ args self' = args self
     /\ today self' = today self /\ yesterday self' = yesterday self
     /\ yesterday_cost self' = yesterday_cost self
     /\ yesterday_discounted_cost self' = yesterday_discounted_cost self)
  /\ (yesterday self = PyDate.sub_days (today self) 1 ->
      Forall (fun rd => start (timePeriod rd) = yesterday self) (reportData cost_item) ->
      exists self',
        book_cost_item self cost_item = inr self'
        /\ args self' = args self
        /\ today self' = today self /\ yesterday self' = yesterday self
        /\ today_cost self' = today_cost self
        /\ today_discounted_cost self' = today_discounted_cost self).
Proof.
  unfold book_cost_item. split.
  - apply book_entries_all_today.
  - intros Hinit. apply book_entries_all_yesterday.
    rewrite Hinit. unfold PyDate.sub_days, PyDate.date. lia.
Qed.

(** ** The status line *)

Lemma no_space_append (a b : string) :
  no_space (a ++ b) = no_space a && no_space b.
Proof.
  induction a as [|c a IH]; simpl.
  - reflexivity.
  - rewrite IH. apply andb_assoc.
Qed.

Lemma no_space_digits (d : Decimal.uint) :
  no_space (NilEmpty.string_of_uint d) = true.
Proof.
  induction d; simpl; auto.
Qed.

Lemma no_space_string_of_nonneg (n : Z) :
  no_space (PyFloat.string_of_nonneg n) = true.
Proof.
  unfold PyFloat.string_of_nonneg, NilZero.string_of_uint.
  destruct (N.to_uint (Z.to_N n)); try reflexivity; apply no_space_digits.
Qed.

Lemma no_space_format_2f (x : PyFloat.float) :
  no_space (PyFloat.format_2f x) = true.
Proof.
  destruct x as [[]|[]| |[] m e]; try reflexivity;
    unfold PyFloat.format_2f, PyFloat.two_digits;
    repeat rewrite no_space_append;
    repeat rewrite no_space_string_of_nonneg;
    try reflexivity;
    destruct (_ <? 10); repeat rewrite no_space_append;
    repeat rewrite no_space_string_of_nonneg; reflexivity.
Qed.

Lemma split_spaces_nonempty (s : string) : split_spaces s <> [].
Proof.
  destruct s as [|c s]; simpl; [discriminate|].
  destruct (Ascii.eqb c " "); [discriminate|].
  destruct (split_spaces s); discriminate.
Qed.

Lemma split_spaces_piece (a : string) :
  no_space a = true -> split_spaces a = [a].
Proof.
  induction a as [|c a IH]; simpl; intros H.
  - reflexivity.
  - apply andb_prop in H. destruct H as [Hc Ha].
    apply negb_true_iff in Hc. rewrite Hc, (IH Ha). reflexivity.
Qed.

Lemma split_spaces_cons (a rest : string) :
  no_space a = true -> split_spaces (a ++ " " ++ rest) = a :: split_spaces rest.
Proof.
  induction a as [|c a IH]; simpl; intros H.
  - reflexivity.
  - apply andb_prop in H. destruct H as [Hc Ha].
    apply negb_true_iff in Hc. rewrite Hc.
    change (a ++ String " " rest) with (a ++ " " ++ rest).
    rewrite (IH Ha). reflexivity.
Qed.

Lemma no_space_token (key : string) (x : PyFloat.float) :
  no_space key = true -> no_space (key ++ PyFloat.format_2f x ++ ";;;") = true.
Proof.
  intros Hkey. rewrite !no_space_append, Hkey, no_space_format_2f. reflexivity.
Qed.

(** The performance data splits at its spaces into the four items. *)
Lemma perf_data_tokens (self : NagiosReporter) :
  split_spaces (join " " (perf_data_items self)) = perf_data_items self.
Proof.
  unfold perf_data_items, join.
  rewrite (split_spaces_cons _ _ (no_space_token "yesterday_cost=" _ eq_refl)).
  rewrite (split_spaces_cons _ _ (no_space_token "yesterday_discounted_cost=" _ eq_refl)).
  rewrite (split_spaces_cons _ _ (no_space_token "today_cost=" _ eq_refl)).
  rewrite (split_spaces_piece _ (no_space_token "today_discounted_cost=" _ eq_refl)).
  reflexivity.
Qed.

Lemma _finish_run (self : NagiosReporter) (status : NagiosExitCodes.t) (message : string)
  (log : list Event) :
  _finish self status message log =
  ((log ++ [Print (NagiosExitCodes.name status ++ ": " ++ message ++ " | "
                     ++ join " " (perf_data_items self))])%list,
   inl (SystemExit (NagiosExitCodes.value status))).
Proof. reflexivity. Qed.

(** C8: the line that [_finish] prints for a reporter that has booked a
    report ends, after [" | "], with performance data that splits at spaces
    into exactly four tokens, in the order yesterday_cost,
    yesterday_discounted_cost, today_cost and today_discounted_cost; each is
    [key=value;;;] with the value the sum of the charges (or of the
    discounts) of that day in euros, neither folded nor maximised, printed
    with two decimals. *)
Theorem perf_data_four_raw_sums (w : World) (args0 : ParsedArguments)
  (cost_item : CostApiItemWithDetails) (self : NagiosReporter)
  (status : NagiosExitCodes.t) (message : string) (log : list Event) :
  book_cost_item (NagiosReporter_init w args0) cost_item = inr self ->
  exists perf_data,
    _finish self status message log =
      ((log ++ [Print (NagiosExitCodes.name status ++ ": " ++ message ++ " | "
                         ++ perf_data)])%list,
       inl (SystemExit (NagiosExitCodes.value status)))
    /\ split_spaces perf_data =
       [ "yesterday_cost="
           ++ PyFloat.format_2f
                (day_sum charge (yesterday self) (reportData cost_item) PyFloat.zero)
           ++ ";;;";
         "yesterday_discounted_cost="
           ++ PyFloat.format_2f
                (day_sum discount (yesterday self) (reportData cost_item) PyFloat.zero)
           ++ ";;;";
         "today_cost="
           ++ PyFloat.format_2f
                (day_sum charge (today self) (reportData cost_item) PyFloat.zero)
           ++ ";;;";
         "today_discounted_cost="
           ++ PyFloat.format_2f
                (day_sum discount (today self) (reportData cost_item) PyFloat.zero)
           ++ ";;;" ].
Proof.
  intros Hbook. exists (join " " (perf_data_items self)). split.
  - apply _finish_run.
  - rewrite perf_data_tokens. unfold book_cost_item in Hbook.
    apply book_entries_sums in Hbook.
    + rewrite Hbook. reflexivity.
    + simpl. unfold PyDate.sub_days, PyDate.date. lia.
Qed.

(** C8, counterexample: when the credentials do not load, the one line the
    process prints is the UNKNOWN line of [main], which ends at the [|]: its
    performance data has no token, not four.  The OK line of scenario 1 is
    shown beside it, with its four tokens. *)
Lemma unknown_line_has_no_performance_data :
  printed (fst (run_main
                  (world_failing_credentials sample_today
                     (AuthException "key file not readable"))
                  (command_line None None false)))
  = ["UNKNOWN: key file not readable |"]
  /\ performance_tokens "UNKNOWN: key file not readable |" = []
  /\ List.length (performance_tokens "UNKNOWN: key file not readable |") <> 4%nat
  /\ (exists line,
        printed (fst (book_and_report (world_with sample_today scenario_1) default_args
                        false scenario_1)) = [line]
        /\ performance_tokens line =
           ["yesterday_cost=2.00;;;"; "yesterday_discounted_cost=0.00;;;";
            "today_cost=5.00;;;"; "today_discounted_cost=0.00;;;"]).
Proof.
  split; [vm_compute; reflexivity|]. split; [vm_compute; reflexivity|].
  split; [vm_compute; discriminate|].
  eexists. split; vm_compute; reflexivity.
Qed.

Lemma do_report_with_run (self : NagiosReporter) (skip_discount : bool) (log : list Event) :
  do_report_with self skip_discount log =
  let total_cost :=
    PyFloat.max (fst (compared_costs self skip_discount))
      (snd (compared_costs self skip_discount)) in
  _finish self (fst (classify (args self) total_cost))
    (snd (classify (args self) total_cost)) log.
Proof.
  unfold do_report_with. destruct (compared_costs self skip_discount) as [t y]. simpl.
  destruct (classify (args self) (PyFloat.max t y)). reflexivity.
Qed.

(** C7, as the code has it: once [do_report] has read the flag it prints
    exactly one line [<STATUS_NAME>: <message> | <perf-data>] and exits with
    the value of the status.  For CRITICAL and WARNING the message is
    [Daily costs {total:.2f} EUR >= {threshold} EUR], with the threshold that
    was reached and the unit after it too; for OK it is
    [Daily costs {total:.2f} EUR]. *)
Theorem status_line_message (self : NagiosReporter) (skip_discount : bool)
  (log : list Event) :
  exists status message,
    do_report_with self skip_discount log =
      ((log ++ [Print (NagiosExitCodes.name status ++ ": " ++ message ++ " | "
                         ++ join " " (perf_data_items self))])%list,
       inl (SystemExit (NagiosExitCodes.value status)))
    /\ let total_cost :=
         PyFloat.max (fst (compared_costs self skip_discount))
           (snd (compared_costs self skip_discount)) in
       (PyFloat.ge total_cost (critical (args self)) = true
        /\ status = NagiosExitCodes.CRITICAL
        /\ message = "Daily costs " ++ PyFloat.format_2f total_cost ++ " EUR >= "
                       ++ PyFloat.repr (critical (args self)) ++ " EUR")
       \/ (PyFloat.ge total_cost (critical (args self)) = false
           /\ PyFloat.ge total_cost (warning (args self)) = true
           /\ status = NagiosExitCodes.WARNING
           /\ message = "Daily costs " ++ PyFloat.format_2f total_cost ++ " EUR >= "
                          ++ PyFloat.repr (warning (args self)) ++ " EUR")
       \/ (PyFloat.ge total_cost (critical (args self)) = false
           /\ PyFloat.ge total_cost (warning (args self)) = false
           /\ status = NagiosExitCodes.OK
           /\ message = "Daily costs " ++ PyFloat.format_2f total_cost ++ " EUR").
Proof.
  rewrite do_report_with_run.
  set (total_cost := PyFloat.max _ _).
  exists (fst (classify (args self) total_cost)), (snd (classify (args self) total_cost)).
  split; [apply _finish_run|].
  unfold classify. cbv zeta.
  destruct (PyFloat.ge total_cost (critical (args self)));
    [|destruct (PyFloat.ge total_cost (warning (args self)))]; simpl; auto 10.
Qed.

(** C7, counterexample: at 12.00 EUR with the default thresholds the code's
    message is [Daily costs 12.00 EUR >= 10.0 EUR], the specification's is
    [Daily costs 12.00 EUR >= 10.0]. *)
Lemma message_has_unit_after_threshold :
  classify default_args (PyFloat.of_int 12)
    = (NagiosExitCodes.WARNING, "Daily costs 12.00 EUR >= 10.0 EUR")
  /\ spec_message default_args NagiosExitCodes.WARNING (PyFloat.of_int 12)
     = "Daily costs 12.00 EUR >= 10.0"
  /\ snd (classify default_args (PyFloat.of_int 12))
     <> spec_message default_args NagiosExitCodes.WARNING (PyFloat.of_int 12).
Proof.
  repeat split; try (vm_compute; reflexivity).
  apply String.eqb_neq. vm_compute. reflexivity.
Qed.

(** The threshold is printed as [repr] prints it: the shortest digits that
    read back as the same float, half-way cases to the even digit. *)
Example threshold_repr_rounds_half_to_even :
  PyFloat.repr (S754_finite false 4503599627370502 (-3)) = "562949953421312.8"
  /\ PyFloat.repr (S754_finite false 4503599627370498 (-3)) = "562949953421312.2"
  /\ snd (classify
            {| customer_account_id := "acc";
               project_id := "proj";
               warning := S754_finite false 6755399441055744 (-52);
               critical := S754_finite false 4503599627370502 (-3);
               sa_key_json := DEFAULT_SA_KEY_JSON |}
            (PyFloat.of_int 2))
     = "Daily costs 2.00 EUR >= 1.5 EUR".
Proof. repeat split; vm_compute; reflexivity. Qed.

(** Scenarios 2 and 4 of the specification, through lines 71 to 94. *)
Example scenario_2_warning :
  book_and_report (world_with sample_today []) default_args false
    [entry sample_today 1200 0; entry (sample_today - 1) 200 0]
  = ([Print ("WARNING: Daily costs 12.00 EUR >= 10.0 EUR | "
               ++ "yesterday_cost=2.00;;; yesterday_discounted_cost=0.00;;; "
               ++ "today_cost=12.00;;; today_discounted_cost=0.00;;;")],
     inl (SystemExit 1)).
Proof. vm_compute. reflexivity. Qed.

Example scenario_4_critical :
  book_and_report (world_with sample_today []) default_args false
    [entry sample_today 5200 0]
  = ([Print ("CRITICAL: Daily costs 52.00 EUR >= 50.0 EUR | "
               ++ "yesterday_cost=0.00;;; yesterday_discounted_cost=0.00;;; "
               ++ "today_cost=52.00;;; today_discounted_cost=0.00;;;")],
     inl (SystemExit 2)).
Proof. vm_compute. reflexivity. Qed.

(** ** Order of the entries *)

Lemma fresh_reporter_days (w : World) (args0 : ParsedArguments) :
  yesterday (NagiosReporter_init w args0) <> today (NagiosReporter_init w args0).
Proof.
  simpl. unfold PyDate.sub_days, PyDate.date. lia.
Qed.

(** C4, as the code has it: for entries dated today or yesterday, once
    [do_report] has read the flag the classified cost is the maximum of
    today's total and yesterday's total, and the result (status, message
    and performance data) is the same for every reordering of the entries
    that keeps the entries of each day in their order. *)
Theorem report_independent_of_interleaving (w : World) (args0 : ParsedArguments)
  (skip_discount : bool) (entries entries' : list CostApiReportData) :
  let d := utc_date_in_reporter w in
  let d1 := PyDate.sub_days d 1 in
  Forall (fun rd => dated d rd || dated d1 rd = true) entries ->
  Forall (fun rd => dated d rd || dated d1 rd = true) entries' ->
  filter (dated d) entries' = filter (dated d) entries ->
  filter (dated d1) entries' = filter (dated d1) entries ->
  exists reporter,
    book_cost_item (NagiosReporter_init w args0) {| reportData := entries |} = inr reporter
    /\ book_and_report w args0 skip_discount entries' =
       book_and_report w args0 skip_discount entries
    /\ book_and_report w args0 skip_discount entries =
       let total_cost :=
         PyFloat.max (day_total skip_discount d entries)
           (day_total skip_discount d1 entries) in
       _finish reporter (fst (classify args0 total_cost))
         (snd (classify args0 total_cost)) [].
Proof.
  intros d d1 Hall Hall' Hd Hd1.
  destruct (book_entries_total entries (NagiosReporter_init w args0) Hall) as [r Hr].
  destruct (book_entries_total entries' (NagiosReporter_init w args0) Hall') as [r' Hr'].
  pose proof (book_entries_sums _ _ _ (fresh_reporter_days w args0) Hr) as Er.
  pose proof (book_entries_sums _ _ _ (fresh_reporter_days w args0) Hr') as Er'.
  assert (Heq : r' = r).
  { rewrite Er, Er'. unfold day_sum. simpl. fold d. fold d1. rewrite Hd, Hd1. reflexivity. }
  exists r. unfold book_and_report, book_cost_item. simpl reportData.
  rewrite Hr, Hr', Heq. repeat split.
  rewrite do_report_with_run.
  assert (Hcosts : compared_costs r skip_discount =
                   (day_total skip_discount d entries, day_total skip_discount d1 entries)).
  { rewrite Er. unfold compared_costs, day_total. destruct skip_discount; reflexivity. }
  assert (Hargs : args r = args0) by (rewrite Er; reflexivity).
  rewrite Hcosts, Hargs. reflexivity.
Qed.

(** C4, counterexample: 10, 20 and 30 cents of today add up to
    0.6000000000000001 in this order and to 0.6 in the reverse order; with
    the warning threshold at 0.6000000000000001 the first order reports
    WARNING and the second OK. *)
Lemma report_depends_on_entry_order :
  Permutation three_entries (rev three_entries)
  /\ Forall (fun rd => dated sample_today rd = true) three_entries
  /\ get_arguments (command_line (Some just_above_60_cents) None false) []
     = ([], inr args_60_cents)
  /\ book_and_report (world_with sample_today []) args_60_cents false three_entries
     = ([Print ("WARNING: Daily costs 0.60 EUR >= 0.6000000000000001 EUR | "
                  ++ "yesterday_cost=0.00;;; yesterday_discounted_cost=0.00;;; "
                  ++ "today_cost=0.60;;; today_discounted_cost=0.00;;;")],
        inl (SystemExit 1))
  /\ book_and_report (world_with sample_today []) args_60_cents false (rev three_entries)
     = ([Print ("OK: Daily costs 0.60 EUR | "
                  ++ "yesterday_cost=0.00;;; yesterday_discounted_cost=0.00;;; "
                  ++ "today_cost=0.60;;; today_discounted_cost=0.00;;;")],
        inl (SystemExit 0)).
Proof.
  split; [apply Permutation_rev|].
  split; [repeat constructor|].
  repeat split; vm_compute; reflexivity.
Qed.

(** ** The process *)

Lemma run_main_arguments_rejected (w : World) (argv : CommandLine) (e : PyException) :
  get_arguments argv [] = ([], inl e) ->
  caught_by_main e = false ->
  run_main w argv = ([], inl e).
Proof.
  intros Hargs Hcaught.
  unfold run_main, main, try_except, bind. rewrite Hargs, Hcaught. reflexivity.
Qed.

(** What [main] does once the arguments are accepted, the credentials are
    loaded and the cost service has answered with a detailed item. *)
Lemma run_main_after_query (w : World) (argv : CommandLine) (args0 : ParsedArguments)
  (auth : Auth) (item : CostApiItemWithDetails) :
  get_arguments argv [] = ([], inr args0) ->
  load_credentials w (sa_key_json args0) = inr auth ->
  get_project_costs w auth (cost_request w args0) = inr (WithDetails item) ->
  run_main w argv =
  try_except
    (reporter <- lift (book_cost_item (NagiosReporter_init w args0) item) ;;
     do_report reporter)
    caught_by_main
    (fun e =>
       print (NagiosExitCodes.name NagiosExitCodes.UNKNOWN ++ ": " ++ str_exception e ++ " |") ;;;
       exit (NagiosExitCodes.value NagiosExitCodes.UNKNOWN))
    [LoadCredentials (sa_key_json args0); QueryCosts (cost_request w args0)].
Proof.
  intros Hargs Hauth Hquery.
  unfold run_main, main, try_except, bind. rewrite Hargs.
  unfold get_cost, bind, emit, lift, ret.
  simpl. rewrite Hauth. simpl. rewrite Hquery. reflexivity.
Qed.

(** Reading [self.args.skip_discount] raises: the configuration has no such
    attribute. *)
Lemma do_report_attribute_error (self : NagiosReporter) (log : list Event) :
  do_report self log =
  (log, inl (AttributeError "'ParsedArguments' object has no attribute 'skip_discount'")).
Proof. reflexivity. Qed.

(** The flag of the command line does not reach the configuration. *)
Lemma get_arguments_ignores_skip_discount (w c : option PyFloat.float) :
  get_arguments (command_line w c true) = get_arguments (command_line w c false).
Proof. reflexivity. Qed.

(** The two checks of [get_arguments], in their order, seen from the
    process: the first that fails ends the run before any event. *)
Lemma run_main_invalid_thresholds (w : World) (argv : CommandLine) (ns : Namespace) :
  parse_args argv [] = ([], inr ns) ->
  (PyFloat.lt (ns_warning ns) PyFloat.zero = true ->
   run_main w argv = ([], inl (ValueError "Warning threshold must be >= 0.0")))
  /\ (PyFloat.lt (ns_warning ns) PyFloat.zero = false ->
      PyFloat.le (ns_critical ns) (ns_warning ns) = true ->
      run_main w argv =
        ([], inl (ValueError "Critical threshold must be > warning threshold"))).
Proof.
  intros Hparse. split.
  - intros Hw. apply run_main_arguments_rejected; [|reflexivity].
    unfold get_arguments, bind. rewrite Hparse. simpl. rewrite Hw. reflexivity.
  - intros Hw Hc. apply run_main_arguments_rejected; [|reflexivity].
    unfold get_arguments, bind. rewrite Hparse. simpl. rewrite Hw, Hc. reflexivity.
Qed.

(** The comparisons are those of floats: a threshold that is not a number
    is below nothing and above nothing, and passes both checks. *)
Lemma get_arguments_accepts_nan :
  get_arguments (command_line (Some S754_nan) None false) [] =
  ([], inr {| customer_account_id := "acc";
              project_id := "proj";
              warning := S754_nan;
              critical := DEFAULT_CRITICAL_EUROS;
              sa_key_json := DEFAULT_SA_KEY_JSON |}).
Proof. reflexivity. Qed.

(** C6, as the code has it: for thresholds that are numbers the checks are,
    in order, that warning is at least zero and that critical is above
    warning.  When a check fails the process ends with a ValueError whose
    message names the violated constraint; the run has no event at all, so
    the credentials were not loaded and the cost service was not queried,
    neither before nor after the failure. *)
Theorem validation_order_and_no_calls (w : World) (argv : CommandLine) (ns : Namespace) :
  parse_args argv [] = ([], inr ns) ->
  (ns_warning ns <> S754_nan ->
   PyFloat.ge (ns_warning ns) PyFloat.zero = false ->
   run_main w argv = ([], inl (ValueError "Warning threshold must be >= 0.0"))
   /\ collaborator_calls (fst (run_main w argv)) = [])
  /\ (ns_warning ns <> S754_nan ->
      ns_critical ns <> S754_nan ->
      PyFloat.ge (ns_warning ns) PyFloat.zero = true ->
      PyFloat.gt (ns_critical ns) (ns_warning ns) = false ->
      run_main w argv = ([], inl (ValueError "Critical threshold must be > warning threshold"))
      /\ collaborator_calls (fst (run_main w argv)) = []).
Proof.
  intros Hparse.
  destruct (run_main_invalid_thresholds w argv ns Hparse) as [H1 H2]. split.
  - intros Hw Hge.
    assert (Hz : PyFloat.zero <> S754_nan) by (intros Hz; vm_compute in Hz; discriminate Hz).
    rewrite (H1 (ge_false_lt _ _ Hw Hz Hge)). split; reflexivity.
  - intros Hw Hc Hge Hgt.
    rewrite (H2 (ge_true_lt _ _ Hge) (not_lt_ge _ _ Hw Hc Hgt)). split; reflexivity.
Qed.

(** C6, counterexample: with [-w nan] the warning threshold is not at least
    zero and the critical threshold is not above it, yet no check fires: the
    configuration is returned and both collaborators are called. *)
Lemma nan_warning_reaches_the_collaborators :
  PyFloat.ge S754_nan PyFloat.zero = false
  /\ PyFloat.gt DEFAULT_CRITICAL_EUROS S754_nan = false
  /\ (exists args0,
        get_arguments (command_line (Some S754_nan) None false) [] = ([], inr args0)
        /\ warning args0 = S754_nan)
  /\ collaborator_calls
       (fst (run_main (world_with sample_today scenario_1)
               (command_line (Some S754_nan) None false)))
     = [LoadCredentials DEFAULT_SA_KEY_JSON; QueryCosts sample_request].
Proof.
  split; [reflexivity|]. split; [reflexivity|]. split.
  - eexists. split; [apply get_arguments_accepts_nan | reflexivity].
  - vm_compute. reflexivity.
Qed.

(** C5, as the code has it: when the thresholds violate the validation
    (warning below zero, or critical not above warning) the ValueError of
    [get_arguments] is not caught by [main]; nothing is printed and the
    process ends with the status of an uncaught exception, 1. *)
Theorem invalid_thresholds_exit_status (w : World) (argv : CommandLine) (ns : Namespace) :
  parse_args argv [] = ([], inr ns) ->
  PyFloat.lt (ns_warning ns) PyFloat.zero
    || PyFloat.le (ns_critical ns) (ns_warning ns) = true ->
  exists msg,
    run_main w argv = ([], inl (ValueError msg))
    /\ printed (fst (run_main w argv)) = []
    /\ exit_status (snd (run_main w argv)) = 1.
Proof.
  intros Hparse Hbad.
  destruct (run_main_invalid_thresholds w argv ns Hparse) as [H1 H2].
  destruct (PyFloat.lt (ns_warning ns) PyFloat.zero) eqn:Hw.
  - eexists. rewrite (H1 eq_refl). repeat split.
  - simpl in Hbad. eexists. rewrite (H2 eq_refl Hbad). repeat split.
Qed.

(** C5, counterexample: with [-w -1], and with [-w 60] against the default
    critical threshold 50, the exit status is 1 and not 3. *)
Lemma invalid_thresholds_do_not_exit_3 :
  exit_status
    (snd (run_main (world_with sample_today [])
            (command_line (Some (PyFloat.of_int (-1))) None false))) <> 3
  /\ exit_status
       (snd (run_main (world_with sample_today [])
               (command_line (Some (PyFloat.of_int 60)) None false))) <> 3.
Proof.
  split; vm_compute; discriminate.
Qed.


(** C2, as the code has it: when the report has an entry dated neither
    today nor yesterday, [book_cost_item] raises
    [Exception("CostApi returned unexpected date: <date>")] for such an
    entry before any status is printed.  [main] does not catch it: nothing is
    written to standard output and the process ends with the status of an
    uncaught exception, 1. *)
Theorem unexpected_date_is_uncaught (w : World) (argv : CommandLine)
  (args0 : ParsedArguments) (auth : Auth) (item : CostApiItemWithDetails) :
  get_arguments argv [] = ([], inr args0) ->
  load_credentials w (sa_key_json args0) = inr auth ->
  get_project_costs w auth (cost_request w args0) = inr (WithDetails item) ->
  Exists (fun rd => dated (utc_date_in_reporter w) rd = false
                    /\ dated (PyDate.sub_days (utc_date_in_reporter w) 1) rd = false)
    (reportData item) ->
  exists rd,
    In rd (reportData item)
    /\ dated (utc_date_in_reporter w) rd = false
    /\ dated (PyDate.sub_days (utc_date_in_reporter w) 1) rd = false
    /\ run_main w argv =
       ([LoadCredentials (sa_key_json args0); QueryCosts (cost_request w args0)],
        inl (Exception ("CostApi returned unexpected date: "
                          ++ PyDate.isoformat (start (timePeriod rd)))))
    /\ printed (fst (run_main w argv)) = []
    /\ exit_status (snd (run_main w argv)) = 1.
Proof.
  intros Hargs Hauth Hquery Hex.
  destruct (book_entries_unexpected (reportData item) (NagiosReporter_init w args0) Hex)
    as (rd & Hin & Ht & Hy & Hbook).
  exists rd. split; [exact Hin|]. split; [exact Ht|]. split; [exact Hy|].
  rewrite (run_main_after_query w argv args0 auth item Hargs Hauth Hquery).
  unfold try_except, bind, lift, book_cost_item. rewrite Hbook. simpl. repeat split.
Qed.

(** C2, counterexample: a report with an entry of the day before yesterday
    gives no UNKNOWN line and no exit status 3. *)
Lemma unexpected_date_is_not_unknown :
  let run :=
    run_main
      (world_with sample_today
         [entry (sample_today - 2) 500 0; entry (sample_today - 1) 200 0])
      (command_line None None false) in
  printed (fst run) = []
  /\ snd run = inl (Exception "CostApi returned unexpected date: 2026-11-02")
  /\ ~ (printed (fst run) = ["UNKNOWN: CostApi returned unexpected date: 2026-11-02 |"]
        /\ exit_status (snd run) = 3).
Proof.
  vm_compute. repeat split. intros [H _]. discriminate H.
Qed.

(** ** The flag that is not there *)

(** C1, at scenario 1 of the specification (default thresholds, 5.00 EUR
    today and 2.00 EUR yesterday): the classification block, entered with
    the value of the flag, prints the OK line and exits with 0; the process
    does not get there, [do_report] raises AttributeError at line 70, nothing
    is printed and the exit status is 1. *)
Theorem scenario_1_is_not_classified :
  book_and_report (world_with sample_today scenario_1) default_args false scenario_1
    = ([Print ("OK: Daily costs 5.00 EUR | "
                 ++ "yesterday_cost=2.00;;; yesterday_discounted_cost=0.00;;; "
                 ++ "today_cost=5.00;;; today_discounted_cost=0.00;;;")],
       inl (SystemExit 0))
  /\ run_main (world_with sample_today scenario_1) (command_line None None false)
     = ([LoadCredentials DEFAULT_SA_KEY_JSON; QueryCosts sample_request],
        inl (AttributeError "'ParsedArguments' object has no attribute 'skip_discount'"))
  /\ printed (fst (run_main (world_with sample_today scenario_1)
                     (command_line None None false))) = []
  /\ exit_status (snd (run_main (world_with sample_today scenario_1)
                         (command_line None None false))) = 1.
Proof.
  repeat match goal with |- _ /\ _ => split end; vm_compute; reflexivity.
Qed.

(** C3, at scenario 3 of the specification (1.00 EUR of charges and 4.00 EUR
    of discounts today): lines 60 to 72 give 5.00 with the flag unset and
    1.00 with it set, each amount divided by 100; but [get_arguments] returns
    the same configuration with and without [--skip-discount], and with
    either command line the process ends in the AttributeError of line 70
    without a status line. *)
Theorem scenario_3_flag_is_lost :
  (let reporter :=
     {| args := default_args;
        today := sample_today;
        yesterday := sample_today - 1;
        today_cost := euros (PyFloat.of_int 100);
        today_discounted_cost := euros (PyFloat.of_int 400);
        yesterday_cost := PyFloat.zero;
        yesterday_discounted_cost := PyFloat.zero |} in
   book_cost_item (NagiosReporter_init (world_with sample_today scenario_3) default_args)
     {| reportData := scenario_3 |} = inr reporter
   /\ compared_costs reporter false = (PyFloat.of_int 5, PyFloat.zero)
   /\ compared_costs reporter true = (PyFloat.of_int 1, PyFloat.zero))
  /\ get_arguments (command_line None None true) [] = ([], inr default_args)
  /\ get_arguments (command_line None None false) [] = ([], inr default_args)
  /\ (forall skip,
        run_main (world_with sample_today scenario_3) (command_line None None skip)
        = ([LoadCredentials DEFAULT_SA_KEY_JSON; QueryCosts sample_request],
           inl (AttributeError
                  "'ParsedArguments' object has no attribute 'skip_discount'"))).
Proof.
  cbv zeta.
  repeat match goal with |- _ /\ _ => split end;
    try (intros [|]); vm_compute; reflexivity.
Qed.

(** ** The theorems at sample inputs *)

Lemma validation_order_and_no_calls_witness :
  (run_main (world_with sample_today scenario_1)
     (command_line (Some (PyFloat.of_int (-1))) (Some (PyFloat.of_int (-2))) false)
   = ([], inl (ValueError "Warning threshold must be >= 0.0"))
   /\ collaborator_calls
        (fst (run_main (world_with sample_today scenario_1)
                (command_line (Some (PyFloat.of_int (-1))) (Some (PyFloat.of_int (-2)))
                   false))) = [])
  /\ (run_main (world_with sample_today scenario_1)
        (command_line (Some (PyFloat.of_int 60)) None false)
      = ([], inl (ValueError "Critical threshold must be > warning threshold"))
      /\ collaborator_calls
           (fst (run_main (world_with sample_today scenario_1)
                   (command_line (Some (PyFloat.of_int 60)) None false))) = []).
Proof.
  split.
  - refine (proj1 (validation_order_and_no_calls _ _ _ _) _ _);
      [reflexivity | intros H; vm_compute in H; discriminate H | reflexivity].
  - refine (proj2 (validation_order_and_no_calls _ _ _ _) _ _ _ _);
      [reflexivity | intros H; vm_compute in H; discriminate H
       | intros H; vm_compute in H; discriminate H | reflexivity | reflexivity].
Defined.

Lemma invalid_thresholds_exit_status_witness :
  exists msg,
    run_main (world_with sample_today scenario_1)
      (command_line (Some (PyFloat.of_int 50)) None false) = ([], inl (ValueError msg))
    /\ printed (fst (run_main (world_with sample_today scenario_1)
                       (command_line (Some (PyFloat.of_int 50)) None false))) = []
    /\ exit_status (snd (run_main (world_with sample_today scenario_1)
                           (command_line (Some (PyFloat.of_int 50)) None false))) = 1.
Proof.
  refine (invalid_thresholds_exit_status _ _ _ _ _); reflexivity.
Defined.


Lemma unexpected_date_is_uncaught_witness :
  let w := world_with sample_today [entry (sample_today - 2) 500 0] in
  exists rd,
    In rd [entry (sample_today - 2) 500 0]
    /\ dated sample_today rd = false
    /\ dated (sample_today - 1) rd = false
    /\ run_main w (command_line None None false) =
       ([LoadCredentials DEFAULT_SA_KEY_JSON; QueryCosts (cost_request w default_args)],
        inl (Exception ("CostApi returned unexpected date: "
                          ++ PyDate.isoformat (start (timePeriod rd)))))
    /\ printed (fst (run_main w (command_line None None false))) = []
    /\ exit_status (snd (run_main w (command_line None None false))) = 1.
Proof.
  intros w.
  refine (unexpected_date_is_uncaught w (command_line None None false) default_args
            {| key_file := DEFAULT_SA_KEY_JSON |}
            {| reportData := [entry (sample_today - 2) 500 0] |} _ _ _ _);
    try reflexivity.
  constructor. split; reflexivity.
Defined.

Lemma book_cost_item_frame_witness :
  let self := NagiosReporter_init (world_with sample_today []) default_args in
  (exists self',
     book_cost_item self {| reportData := scenario_3 |} = inr self'
     /\ args self' = args self
     /\ today self' = today self /\ yesterday self' = yesterday self
     /\ yesterday_cost self' = yesterday_cost self
     /\ yesterday_discounted_cost self' = yesterday_discounted_cost self)
  /\ (exists self',
        book_cost_item self {| reportData := [entry (sample_today - 1) 200 0] |} = inr self'
        /\ args self' = args self
        /\ today self' = today self /\ yesterday self' = yesterday self
        /\ today_cost self' = today_cost self
        /\ today_discounted_cost self' = today_discounted_cost self).
Proof.
  intros self. split.
  - refine (proj1 (book_cost_item_frame self {| reportData := scenario_3 |}) _).
    repeat constructor.
  - refine (proj2 (book_cost_item_frame self
                     {| reportData := [entry (sample_today - 1) 200 0] |}) _ _).
    + reflexivity.
    + repeat constructor.
Defined.

Lemma perf_data_four_raw_sums_witness :
  exists perf_data,
    _finish
      {| args := default_args;
         today := sample_today;
         yesterday := sample_today - 1;
         today_cost := PyFloat.add (euros (PyFloat.of_int 12345)) (euros (PyFloat.of_int 100));
         today_discounted_cost := euros (PyFloat.of_int 7);
         yesterday_cost := euros (PyFloat.of_int 999);
         yesterday_discounted_cost := euros (PyFloat.of_int 250000) |}
      NagiosExitCodes.CRITICAL "Daily costs 2509.99 EUR >= 50.0 EUR" [] =
      ([Print ("CRITICAL: Daily costs 2509.99 EUR >= 50.0 EUR | " ++ perf_data)],
       inl (SystemExit 2))
    /\ split_spaces perf_data =
       [ "yesterday_cost=9.99;;;";
         "yesterday_discounted_cost=2500.00;;;";
         "today_cost=124.45;;;";
         "today_discounted_cost=0.07;;;" ].
Proof.
  pose proof
    (perf_data_four_raw_sums (world_with sample_today two_days) default_args
       {| reportData := two_days |}
       {| args := default_args;
          today := sample_today;
          yesterday := sample_today - 1;
          today_cost := PyFloat.add (euros (PyFloat.of_int 12345)) (euros (PyFloat.of_int 100));
          today_discounted_cost := euros (PyFloat.of_int 7);
          yesterday_cost := euros (PyFloat.of_int 999);
          yesterday_discounted_cost := euros (PyFloat.of_int 250000) |}
       NagiosExitCodes.CRITICAL "Daily costs 2509.99 EUR >= 50.0 EUR" []
       ltac:(vm_compute; reflexivity)) as H.
  vm_compute in H. vm_compute. exact H.
Defined.

Lemma report_independent_of_interleaving_witness :
  let w := world_with sample_today [] in
  let entries :=
    [entry sample_today 500 0; entry (sample_today - 1) 200 0; entry sample_today 700 0] in
  let entries' :=
    [entry (sample_today - 1) 200 0; entry sample_today 500 0; entry sample_today 700 0] in
  exists reporter,
    book_cost_item (NagiosReporter_init w default_args) {| reportData := entries |}
      = inr reporter
    /\ book_and_report w default_args false entries'
       = book_and_report w default_args false entries
    /\ book_and_report w default_args false entries =
       let total_cost :=
         PyFloat.max (day_total false sample_today entries)
           (day_total false (sample_today - 1) entries) in
       _finish reporter (fst (classify default_args total_cost))
         (snd (classify default_args total_cost)) [].
Proof.
  intros w entries entries'.
  refine (report_independent_of_interleaving w default_args false entries entries'
            _ _ _ _); try reflexivity; repeat constructor.
Defined.

(** * Further properties of the plugin *)

(** ** get_arguments *)

Lemma print_all_run (text : list string) :
  forall log : list Event,
  print_all text log = ((log ++ map Print text)%list, inr tt).
Proof.
  induction text as [|line rest IH]; intros log; simpl.
  - rewrite app_nil_r. reflexivity.
  - unfold bind, print, emit. rewrite IH, <- app_assoc. reflexivity.
Qed.

Lemma collaborator_calls_prints (text : list string) :
  collaborator_calls (map Print text) = [].
Proof. induction text as [|line rest IH]; [reflexivity|exact IH]. Qed.

Lemma printed_prints (text : list string) : printed (map Print text) = text.
Proof.
  induction text as [|line rest IH]; [reflexivity|]. simpl. f_equal. exact IH.
Qed.

(** The three ways out of [get_arguments]: the help of the parser, printed
    before [SystemExit(0)]; an exception that [main] does not catch, with
    nothing printed; a configuration, with nothing printed. *)
Lemma get_arguments_cases (argv : CommandLine) :
  (exists text,
     parser_exit argv = Some (Help text)
     /\ get_arguments argv [] = (map Print text, inl (SystemExit 0)))
  \/ (exists e, get_arguments argv [] = ([], inl e) /\ caught_by_main e = false)
  \/ (exists args0, get_arguments argv [] = ([], inr args0)).
Proof.
  unfold get_arguments, parse_args, bind.
  destruct (parser_exit argv) as [[text|message]|].
  - left. exists text. split; [reflexivity|].
    unfold bind. rewrite print_all_run. reflexivity.
  - right. left. eexists. split; reflexivity.
  - destruct (opt_customer_account_id argv); [destruct (opt_project_id argv)|];
      simpl; try (right; left; eexists; split; reflexivity).
    destruct (PyFloat.lt _ _); [|destruct (PyFloat.le _ _)];
      try (right; left; eexists; split; reflexivity).
    right. right. eexists. reflexivity.
Qed.

Lemma get_arguments_checks_passed (argv : CommandLine) (args0 : ParsedArguments) :
  get_arguments argv [] = ([], inr args0) ->
  PyFloat.lt (warning args0) PyFloat.zero = false
  /\ PyFloat.le (critical args0) (warning args0) = false.
Proof.
  unfold get_arguments, bind.
  destruct (parse_args argv []) as [log' [e|ns]]; [discriminate|].
  destruct (PyFloat.lt _ PyFloat.zero) eqn:Hw; [discriminate|].
  destruct (PyFloat.le _ _) eqn:Hc; [discriminate|].
  intros H. inversion H; subst. simpl. auto.
Qed.

(** X3: for a configuration that [get_arguments] has returned and whose
    thresholds are numbers, warning is at least zero and critical is above
    warning, and lines 74 to 82 classify a total by these two steps: below
    warning OK, from warning up to critical WARNING, from critical on
    CRITICAL. *)
Theorem accepted_thresholds_classify_by_steps (argv : CommandLine)
  (args0 : ParsedArguments) (total_cost : PyFloat.float) :
  get_arguments argv [] = ([], inr args0) ->
  warning args0 <> S754_nan ->
  critical args0 <> S754_nan ->
  PyFloat.ge (warning args0) PyFloat.zero = true
  /\ PyFloat.lt (warning args0) (critical args0) = true
  /\ (PyFloat.lt total_cost (warning args0) = true ->
      fst (classify args0 total_cost) = NagiosExitCodes.OK)
  /\ (PyFloat.le (warning args0) total_cost = true ->
      PyFloat.lt total_cost (critical args0) = true ->
      fst (classify args0 total_cost) = NagiosExitCodes.WARNING)
  /\ (PyFloat.ge total_cost (critical args0) = true ->
      fst (classify args0 total_cost) = NagiosExitCodes.CRITICAL).
Proof.
  intros Hargs Hw Hc.
  destruct (get_arguments_checks_passed argv args0 Hargs) as [Hlt Hle].
  assert (Hwc : PyFloat.lt (warning args0) (critical args0) = true)
    by (apply not_le_gt; assumption).
  split; [apply not_lt_ge; [assumption|discriminate|assumption]|].
  split; [exact Hwc|]. apply classify_step. exact Hwc.
Qed.

(** X13: a warning threshold that is not a number passes both checks of
    [get_arguments] whatever the critical threshold is, and with it no total
    is classified WARNING. *)
Theorem nan_warning_is_accepted_and_never_warns (account project : string)
  (c : option PyFloat.float) (key : option string) (skip : bool)
  (total_cost : PyFloat.float) :
  exists args0,
    get_arguments
      {| parser_exit := None;
         opt_customer_account_id := Some account;
         opt_project_id := Some project;
         opt_warning := Some S754_nan;
         opt_critical := c;
         opt_sa_key_json := key;
         opt_skip_discount := skip |} [] = ([], inr args0)
    /\ warning args0 = S754_nan
    /\ fst (classify args0 total_cost) <> NagiosExitCodes.WARNING.
Proof.
  eexists. split; [|split].
  - unfold get_arguments, parse_args, ParsedArguments_init, bind. simpl.
    unfold PyFloat.le, SFleb. rewrite SFcompare_nan_r. reflexivity.
  - reflexivity.
  - unfold classify. simpl.
    destruct (PyFloat.ge total_cost _); [discriminate|].
    unfold PyFloat.ge, SFleb. simpl. discriminate.
Qed.

(** ** book_cost_item *)

Lemma book_entries_app (l1 l2 : list CostApiReportData) :
  forall self : NagiosReporter,
  book_entries self (l1 ++ l2)%list =
  match book_entries self l1 with
  | inr self' => book_entries self' l2
  | inl e => inl e
  end.
Proof.
  induction l1 as [|rd rest IH]; intros self; simpl.
  - reflexivity.
  - destruct (book_report_data self rd) as [e|self']; [reflexivity|apply IH].
Qed.

Lemma book_entries_frame (entries : list CostApiReportData) :
  forall self self' : NagiosReporter,
  book_entries self entries = inr self' ->
  args self' = args self /\ today self' = today self /\ yesterday self' = yesterday self.
Proof.
  induction entries as [|rd rest IH]; intros self self' H; simpl in H.
  - inversion H. auto.
  - destruct (book_report_data self rd) as [e|s] eqn:Hrd; [discriminate|].
    destruct (book_report_data_frame _ _ _ Hrd) as (Ha & Ht & Hy).
    destruct (IH _ _ H) as (Ha' & Ht' & Hy'). repeat split; congruence.
Qed.

Lemma book_entries_inr_all (entries : list CostApiReportData) :
  forall self self' : NagiosReporter,
  book_entries self entries = inr self' ->
  Forall (fun rd => dated (today self) rd || dated (yesterday self) rd = true) entries.
Proof.
  induction entries as [|rd rest IH]; intros self self' H; simpl in H.
  - constructor.
  - destruct (book_report_data self rd) as [e|s] eqn:Hrd; [discriminate|].
    destruct (book_report_data_frame _ _ _ Hrd) as (_ & Ht & Hy).
    constructor.
    + unfold book_report_data in Hrd. unfold dated.
      destruct (PyDate.eqb _ (today self)); [reflexivity|].
      destruct (PyDate.eqb _ (yesterday self)); [reflexivity|discriminate].
    + rewrite <- Ht, <- Hy. eapply IH. exact H.
Qed.

(** X6: booking a cost item into a fresh reporter without an exception
    leaves the configuration and the two dates as [__init__] set them, and
    in each of the four accumulators the amounts of its day, each divided by
    100 and added to 0.0 in the order of the entries. *)
Theorem book_cost_item_accumulates (w : World) (args0 : ParsedArguments)
  (cost_item : CostApiItemWithDetails) (self : NagiosReporter) :
  book_cost_item (NagiosReporter_init w args0) cost_item = inr self ->
  let d := utc_date_in_reporter w in
  self =
  {| args := args0;
     today := d;
     yesterday := PyDate.sub_days d 1;
     today_cost := day_sum charge d (reportData cost_item) PyFloat.zero;
     today_discounted_cost := day_sum discount d (reportData cost_item) PyFloat.zero;
     yesterday_cost :=
       day_sum charge (PyDate.sub_days d 1) (reportData cost_item) PyFloat.zero;
     yesterday_discounted_cost :=
       day_sum discount (PyDate.sub_days d 1) (reportData cost_item) PyFloat.zero |}.
Proof.
  intros Hbook d. unfold book_cost_item in Hbook.
  apply book_entries_sums in Hbook; [exact Hbook|apply fresh_reporter_days].
Qed.

(** X7: [book_cost_item] returns without an exception exactly when every
    entry of the item is dated today or yesterday (an item without entries
    included). *)
Theorem book_cost_item_returns_iff (self : NagiosReporter)
  (cost_item : CostApiItemWithDetails) :
  (exists self', book_cost_item self cost_item = inr self') <->
  Forall (fun rd => dated (today self) rd || dated (yesterday self) rd = true)
    (reportData cost_item).
Proof.
  unfold book_cost_item. split.
  - intros [self' H]. eapply book_entries_inr_all. exact H.
  - apply book_entries_total.
Qed.

(** X8: the exception of [book_cost_item] carries the date of the first
    entry, in the order of the item, that is dated neither today nor
    yesterday; the entries after it are not looked at. *)
Theorem first_unexpected_date_is_raised (self : NagiosReporter)
  (before after : list CostApiReportData) (rd : CostApiReportData) :
  Forall (fun rd0 => dated (today self) rd0 || dated (yesterday self) rd0 = true) before ->
  dated (today self) rd = false ->
  dated (yesterday self) rd = false ->
  book_cost_item self {| reportData := (before ++ rd :: after)%list |} =
  inl (Exception ("CostApi returned unexpected date: "
                    ++ PyDate.isoformat (start (timePeriod rd)))).
Proof.
  intros Hbefore Ht Hy. unfold book_cost_item. simpl reportData.
  rewrite book_entries_app.
  destruct (book_entries_total before self Hbefore) as [self' Hself'].
  rewrite Hself'.
  destruct (book_entries_frame _ _ _ Hself') as (_ & Ht' & Hy').
  simpl. unfold book_report_data. unfold dated in Ht, Hy.
  rewrite Ht', Hy', Ht, Hy. reflexivity.
Qed.

(** X9: booking one item whose entries are those of a first item followed
    by those of a second is booking the first item and then, if that raised
    nothing, the second into the reporter it left. *)
Theorem book_cost_item_of_concatenation (self : NagiosReporter)
  (first second : CostApiItemWithDetails) :
  book_cost_item self {| reportData := (reportData first ++ reportData second)%list |} =
  match book_cost_item self first with
  | inr self' => book_cost_item self' second
  | inl e => inl e
  end.
Proof.
  unfold book_cost_item. simpl. apply book_entries_app.
Qed.

(** ** Amounts that are not numbers *)

Lemma day_sum_nan_acc (amount : CostApiReportData -> PyFloat.float) (d : PyDate.date)
  (entries : list CostApiReportData) :
  day_sum amount d entries S754_nan = S754_nan.
Proof.
  induction entries as [|rd rest IH].
  - reflexivity.
  - rewrite day_sum_cons. destruct (dated d rd); [rewrite add_nan_l|]; exact IH.
Qed.

Lemma day_sum_nan (amount : CostApiReportData -> PyFloat.float) (d : PyDate.date)
  (entries : list CostApiReportData) :
  Exists (fun rd => dated d rd = true /\ amount rd = S754_nan) entries ->
  forall acc, day_sum amount d entries acc = S754_nan.
Proof.
  induction 1 as [rd rest [Hd Ha]|rd rest _ IH]; intros acc; rewrite day_sum_cons.
  - rewrite Hd, Ha. unfold euros, PyFloat.truediv. simpl SFdiv.
    rewrite add_nan_r. apply day_sum_nan_acc.
  - destruct (dated d rd); apply IH.
Qed.

(** X4: when an entry of today has a charge that is not a number, today's
    cost is not a number either, whatever else is booked; the maximum of
    line 73 then keeps it whatever yesterday cost, and lines 74 to 82 report
    OK with the message [Daily costs nan EUR], for both values of the flag
    and for all thresholds. *)
Theorem nan_charge_today_reports_ok (w : World) (args0 : ParsedArguments)
  (skip_discount : bool) (entries : list CostApiReportData) :
  let d := utc_date_in_reporter w in
  Forall (fun rd => dated d rd || dated (PyDate.sub_days d 1) rd = true) entries ->
  Exists (fun rd => dated d rd = true /\ charge rd = S754_nan) entries ->
  exists reporter,
    book_cost_item (NagiosReporter_init w args0) {| reportData := entries |} = inr reporter
    /\ today_cost reporter = S754_nan
    /\ book_and_report w args0 skip_discount entries =
       ([Print ("OK: Daily costs nan EUR | " ++ join " " (perf_data_items reporter))],
        inl (SystemExit 0)).
Proof.
  intros d Hall Hnan.
  destruct (book_entries_total entries (NagiosReporter_init w args0) Hall) as [r Hr].
  pose proof (book_entries_sums _ _ _ (fresh_reporter_days w args0) Hr) as Er.
  assert (Htoday : today_cost r = S754_nan).
  { rewrite Er. simpl. apply day_sum_nan. exact Hnan. }
  assert (Hargs : args r = args0) by (rewrite Er; reflexivity).
  exists r. split; [exact Hr|]. split; [exact Htoday|].
  unfold book_and_report, book_cost_item. simpl reportData. rewrite Hr.
  rewrite do_report_with_run.
  assert (Hfst : fst (compared_costs r skip_discount) = S754_nan).
  { unfold compared_costs. destruct skip_discount; simpl; rewrite Htoday; reflexivity. }
  rewrite Hfst. cbv zeta.
  assert (Hmax : forall y, PyFloat.max S754_nan y = S754_nan) by reflexivity.
  rewrite Hmax, Hargs. unfold classify. rewrite !ge_nan. reflexivity.
Qed.

(** ** get_cost and main *)

(** X1: when the cost service answers with an item that has no report data,
    [get_cost] raises a plain Exception after both collaborators have been
    called; [main] does not catch it, so nothing is printed and the exit
    status is 1. *)
Theorem item_without_details_is_uncaught (w : World) (argv : CommandLine)
  (args0 : ParsedArguments) (auth : Auth) :
  get_arguments argv [] = ([], inr args0) ->
  load_credentials w (sa_key_json args0) = inr auth ->
  get_project_costs w auth (cost_request w args0) = inr WithoutDetails ->
  run_main w argv =
    ([LoadCredentials (sa_key_json args0); QueryCosts (cost_request w args0)],
     inl (Exception "CostAPI returned item without report data!"))
  /\ printed (fst (run_main w argv)) = []
  /\ exit_status (snd (run_main w argv)) = 1.
Proof.
  intros Hargs Hauth Hquery.
  assert (H : run_main w argv =
              ([LoadCredentials (sa_key_json args0); QueryCosts (cost_request w args0)],
               inl (Exception "CostAPI returned item without report data!"))).
  { unfold run_main, main, try_except, bind. rewrite Hargs.
    unfold get_cost, bind, emit, lift, raise.
    simpl. rewrite Hauth. simpl. rewrite Hquery. reflexivity. }
  rewrite H. repeat split.
Qed.

(** X2: in every run the collaborators are called at most once each and in
    this order: nothing when the arguments are rejected, the credential
    loader alone when it fails, and otherwise the loader followed by one
    query for the project of the configuration, from the day before the
    current UTC date to that date, daily, at project depth and without zero
    costs.  No outcome of the query leads to a second call. *)
Theorem collaborators_called_once_in_order (w : World) (argv : CommandLine) :
  collaborator_calls (fst (run_main w argv)) =
  match snd (get_arguments argv []) with
  | inl _ => []
  | inr args0 =>
      match load_credentials w (sa_key_json args0) with
      | inl _ => [LoadCredentials (sa_key_json args0)]
      | inr _ =>
          [LoadCredentials (sa_key_json args0);
           QueryCosts
             {| req_customer_account_id := customer_account_id args0;
                req_project_id := project_id args0;
                from_date := PyDate.sub_days (utc_date_in_get_cost w) 1;
                to_date := utc_date_in_get_cost w;
                granularity := DAILY;
                depth := PROJECT;
                include_zero_costs := false |}]
      end
  end.
Proof.
  unfold run_main, main, try_except, bind.
  destruct (get_arguments_cases argv)
    as [(text & _ & Hargs) | [(e & Hargs & Hc) | (args0 & Hargs)]]; rewrite Hargs.
  - simpl. apply collaborator_calls_prints.
  - rewrite Hc. reflexivity.
  - unfold get_cost, bind, emit, lift, ret, raise. simpl.
    destruct (load_credentials w (sa_key_json args0)) as [e|auth]; simpl.
    + destruct (caught_by_main e); reflexivity.
    + fold (cost_request w args0).
      destruct (get_project_costs w auth (cost_request w args0)) as [e|[item|]]; simpl.
      * destruct (caught_by_main e); reflexivity.
      * destruct (book_cost_item (NagiosReporter_init w args0) item) as [e|r]; simpl.
        -- destruct (caught_by_main e); reflexivity.
        -- reflexivity.
      * reflexivity.
Qed.

Lemma book_entries_error_not_caught (entries : list CostApiReportData) :
  forall (self : NagiosReporter) (e : PyException),
  book_entries self entries = inl e -> caught_by_main e = false.
Proof.
  induction entries as [|rd rest IH]; intros self e H; simpl in H.
  - discriminate.
  - destruct (book_report_data self rd) as [e'|self'] eqn:Hrd.
    + unfold book_report_data in Hrd.
      destruct (PyDate.eqb _ (today self)); [discriminate|].
      destruct (PyDate.eqb _ (yesterday self)); [discriminate|].
      inversion Hrd; subst. inversion H; subst. reflexivity.
    + eapply IH. exact H.
Qed.

(** X10: whatever the command line and the outside world, [main] never
    returns normally.  Either the parser was asked for its help, which is
    printed before the process exits with 0; or nothing is printed and the
    process ends with an exception that the handler of [main] does not
    catch; or a collaborator raised an AuthException or CostApiException and
    the one line printed is the UNKNOWN line of that exception, with exit
    status 3.  No OK, WARNING or CRITICAL line is printed in any run. *)
Theorem main_prints_help_nothing_or_unknown (w : World) (argv : CommandLine) :
  (exists text,
     parser_exit argv = Some (Help text)
     /\ run_main w argv = (map Print text, inl (SystemExit 0))
     /\ printed (fst (run_main w argv)) = text)
  \/ (exists e,
        snd (run_main w argv) = inl e
        /\ caught_by_main e = false
        /\ printed (fst (run_main w argv)) = [])
  \/ (exists e,
        caught_by_main e = true
        /\ printed (fst (run_main w argv)) = ["UNKNOWN: " ++ str_exception e ++ " |"]
        /\ snd (run_main w argv) = inl (SystemExit 3)).
Proof.
  unfold run_main, main, try_except, bind.
  destruct (get_arguments_cases argv)
    as [(text & Hhelp & Hargs) | [(e & Hargs & Hc) | (args0 & Hargs)]]; rewrite Hargs.
  - left. exists text. simpl. rewrite printed_prints. auto.
  - rewrite Hc. right. left. exists e. auto.
  - unfold get_cost, bind, emit, lift, ret, raise. simpl.
    destruct (load_credentials w (sa_key_json args0)) as [e|auth]; simpl.
    + destruct (caught_by_main e) eqn:Hc.
      * right. right. exists e. auto.
      * right. left. exists e. auto.
    + destruct (get_project_costs w auth _) as [e|[item|]]; simpl.
      * destruct (caught_by_main e) eqn:Hc.
        -- right. right. exists e. auto.
        -- right. left. exists e. auto.
      * destruct (book_cost_item (NagiosReporter_init w args0) item) as [e|r] eqn:Hbook;
          simpl.
        -- unfold book_cost_item in Hbook.
           pose proof (book_entries_error_not_caught _ _ _ Hbook) as Hc.
           rewrite Hc. right. left. exists e. auto.
        -- right. left. eexists. split; [reflexivity|]. auto.
      * right. left. eexists. split; [reflexivity|]. auto.
Qed.

(** ** The two readings of the clock *)

(** X11: when the UTC date that [NagiosReporter.__init__] reads is the one
    [get_cost] read for the request, every entry that starts within the
    requested range, from [from_date] to [to_date], is booked without an
    exception. *)
Theorem requested_range_is_booked (w : World) (args0 : ParsedArguments)
  (cost_item : CostApiItemWithDetails) :
  utc_date_in_reporter w = utc_date_in_get_cost w ->
  Forall (fun rd => from_date (cost_request w args0) <= start (timePeriod rd)
                    /\ start (timePeriod rd) <= to_date (cost_request w args0))
    (reportData cost_item) ->
  exists self', book_cost_item (NagiosReporter_init w args0) cost_item = inr self'.
Proof.
  intros Hclock Hall. unfold book_cost_item. apply book_entries_total.
  simpl. rewrite Hclock. revert Hall. apply Forall_impl. intros rd [Hlo Hhi].
  unfold dated, PyDate.eqb, PyDate.sub_days, PyDate.date in *. simpl in Hlo, Hhi.
  unfold PyDate.sub_days in Hlo.
  destruct (Z.eqb_spec (start (timePeriod rd)) (utc_date_in_get_cost w)); [reflexivity|].
  destruct (Z.eqb_spec (start (timePeriod rd)) (utc_date_in_get_cost w - 1));
    [reflexivity|]. lia.
Qed.

(** X12: when the UTC date has moved on by one day between the reading in
    [get_cost] and the reading in [NagiosReporter.__init__], an item with an
    entry that starts on the first requested day, [from_date], is not
    booked: [book_cost_item] raises the unexpected-date Exception for an
    entry of the item. *)
Theorem date_rollover_rejects_first_requested_day (w : World) (args0 : ParsedArguments)
  (cost_item : CostApiItemWithDetails) :
  utc_date_in_reporter w = utc_date_in_get_cost w + 1 ->
  Exists (fun rd => start (timePeriod rd) = from_date (cost_request w args0))
    (reportData cost_item) ->
  exists rd,
    In rd (reportData cost_item)
    /\ book_cost_item (NagiosReporter_init w args0) cost_item =
       inl (Exception ("CostApi returned unexpected date: "
                         ++ PyDate.isoformat (start (timePeriod rd)))).
Proof.
  intros Hclock Hex.
  destruct (book_entries_unexpected (reportData cost_item) (NagiosReporter_init w args0))
    as (rd & Hin & _ & _ & Hbook).
  - revert Hex. apply Exists_impl. intros rd Hrd. simpl. rewrite Hclock.
    unfold dated, PyDate.eqb, PyDate.sub_days, PyDate.date in *. simpl in Hrd.
    unfold PyDate.sub_days in Hrd. rewrite Hrd.
    split; apply Z.eqb_neq; lia.
  - exists rd. split; [exact Hin|exact Hbook].
Qed.

(** ** The further theorems at sample inputs *)

Lemma accepted_thresholds_classify_by_steps_witness :
  PyFloat.ge DEFAULT_WARNING_EUROS PyFloat.zero = true
  /\ PyFloat.lt DEFAULT_WARNING_EUROS DEFAULT_CRITICAL_EUROS = true
  /\ (PyFloat.lt (PyFloat.of_int 12) DEFAULT_WARNING_EUROS = true ->
      fst (classify default_args (PyFloat.of_int 12)) = NagiosExitCodes.OK)
  /\ (PyFloat.le DEFAULT_WARNING_EUROS (PyFloat.of_int 12) = true ->
      PyFloat.lt (PyFloat.of_int 12) DEFAULT_CRITICAL_EUROS = true ->
      fst (classify default_args (PyFloat.of_int 12)) = NagiosExitCodes.WARNING)
  /\ (PyFloat.ge (PyFloat.of_int 12) DEFAULT_CRITICAL_EUROS = true ->
      fst (classify default_args (PyFloat.of_int 12)) = NagiosExitCodes.CRITICAL).
Proof.
  refine (accepted_thresholds_classify_by_steps (command_line None None false)
            default_args (PyFloat.of_int 12) _ _ _); [reflexivity| |]; discriminate.
Defined.

Lemma book_cost_item_accumulates_witness :
  let w := world_with sample_today [] in
  let self :=
    {| args := default_args;
       today := sample_today;
       yesterday := sample_today - 1;
       today_cost := PyFloat.of_int 5;
       today_discounted_cost := PyFloat.zero;
       yesterday_cost := PyFloat.of_int 2;
       yesterday_discounted_cost := PyFloat.zero |} in
  self =
  {| args := default_args;
     today := sample_today;
     yesterday := PyDate.sub_days sample_today 1;
     today_cost := day_sum charge sample_today scenario_1 PyFloat.zero;
     today_discounted_cost := day_sum discount sample_today scenario_1 PyFloat.zero;
     yesterday_cost :=
       day_sum charge (PyDate.sub_days sample_today 1) scenario_1 PyFloat.zero;
     yesterday_discounted_cost :=
       day_sum discount (PyDate.sub_days sample_today 1) scenario_1 PyFloat.zero |}.
Proof.
  intros w self.
  refine (book_cost_item_accumulates w default_args {| reportData := scenario_1 |} self _).
  vm_compute. reflexivity.
Defined.

Lemma first_unexpected_date_is_raised_witness :
  book_cost_item (NagiosReporter_init (world_with sample_today []) default_args)
    {| reportData :=
         ([entry sample_today 500 0]
            ++ entry (sample_today - 2) 300 0 :: [entry (sample_today - 3) 100 0])%list |}
  = inl (Exception ("CostApi returned unexpected date: "
                      ++ PyDate.isoformat (start (timePeriod (entry (sample_today - 2) 300 0))))).
Proof.
  refine (first_unexpected_date_is_raised
            (NagiosReporter_init (world_with sample_today []) default_args)
            [entry sample_today 500 0] [entry (sample_today - 3) 100 0]
            (entry (sample_today - 2) 300 0) _ _ _); try reflexivity.
  repeat constructor.
Defined.

Lemma nan_charge_today_reports_ok_witness :
  let w := world_with sample_today [] in
  let entries :=
    [ {| timePeriod := {| start := sample_today; end_ := sample_today + 1 |};
         charge := S754_nan;
         discount := PyFloat.zero |};
      entry (sample_today - 1) 1000000 0 ] in
  exists reporter,
    book_cost_item (NagiosReporter_init w default_args) {| reportData := entries |}
      = inr reporter
    /\ today_cost reporter = S754_nan
    /\ book_and_report w default_args false entries =
       ([Print ("OK: Daily costs nan EUR | " ++ join " " (perf_data_items reporter))],
        inl (SystemExit 0)).
Proof.
  intros w entries.
  refine (nan_charge_today_reports_ok w default_args false entries _ _).
  - repeat constructor.
  - constructor. split; reflexivity.
Defined.

Lemma item_without_details_is_uncaught_witness :
  let w :=
    {| utc_date_in_get_cost := sample_today;
       utc_date_in_reporter := sample_today;
       load_credentials := fun path => inr {| key_file := path |};
       get_project_costs := fun _ _ => inr WithoutDetails |} in
  run_main w (command_line None None false) =
    ([LoadCredentials DEFAULT_SA_KEY_JSON; QueryCosts (cost_request w default_args)],
     inl (Exception "CostAPI returned item without report data!"))
  /\ printed (fst (run_main w (command_line None None false))) = []
  /\ exit_status (snd (run_main w (command_line None None false))) = 1.
Proof.
  intros w.
  refine (item_without_details_is_uncaught w (command_line None None false) default_args
            {| key_file := DEFAULT_SA_KEY_JSON |} _ _ _); reflexivity.
Defined.

Lemma requested_range_is_booked_witness :
  exists self',
    book_cost_item (NagiosReporter_init (world_with sample_today []) default_args)
      {| reportData := scenario_1 |} = inr self'.
Proof.
  refine (requested_range_is_booked (world_with sample_today []) default_args
            {| reportData := scenario_1 |} _ _).
  - reflexivity.
  - repeat constructor; simpl; unfold sample_today, PyDate.sub_days; lia.
Defined.

Lemma date_rollover_rejects_first_requested_day_witness :
  let w :=
    {| utc_date_in_get_cost := sample_today - 1;
       utc_date_in_reporter := sample_today;
       load_credentials := fun path => inr {| key_file := path |};
       get_project_costs := fun _ _ => inr WithoutDetails |} in
  let item := {| reportData := [entry (sample_today - 1) 500 0; entry (sample_today - 2) 200 0] |} in
  exists rd,
    In rd (reportData item)
    /\ book_cost_item (NagiosReporter_init w default_args) item =
       inl (Exception ("CostApi returned unexpected date: "
                         ++ PyDate.isoformat (start (timePeriod rd)))).
Proof.
  intros w item.
  refine (date_rollover_rejects_first_requested_day w default_args item _ _).
  - reflexivity.
  - right. left. reflexivity.
Defined.
